(** * aiohttp/pytest_plugin.py: a shallow embedding and its properties

    The plugin glues an asynchronous test body, asynchronous fixtures and
    ephemeral test servers/clients to pytest's synchronous hook protocol.
    Python values are embedded as Rocq data, the interpreter state the
    plugin touches (event-loop creation, the warnings log, async generator
    objects, the registry lists, the request finalizers) as an explicit
    world threaded through a state-and-exception monad. *)

From Stdlib Require Import Ascii String.
From stdpp Require Import gmap strings list pretty.

Open Scope string_scope.
Open Scope list_scope.

(** ** Python strings *)

Module PyStr.

Definition nl : string := String "010"%char "".

(** [sep.join(l)] *)
Fixpoint join (sep : string) (l : list string) : string :=
  match l with
  | [] => ""
  | [x] => x
  | x :: rest => x +:+ sep +:+ join sep rest
  end.

(** [s.split(c)] for a one-character separator: never returns an empty
    list, [''.split(',') == ['']]. *)
Fixpoint split (c : ascii) (s : string) : list string :=
  match s with
  | "" => [""]
  | String a s' =>
      if Ascii.eqb a c then "" :: split c s'
      else match split c s' with
           | [] => [String a ""]
           | p :: ps => String a p :: ps
           end
  end.

(** [s.endswith(c)] for a one-character suffix. *)
Fixpoint endswith (c : ascii) (s : string) : bool :=
  match s with
  | "" => false
  | String a "" => Ascii.eqb a c
  | String _ s' => endswith c s'
  end.

Definition in_chars (a : ascii) (chars : list ascii) : bool :=
  existsb (Ascii.eqb a) chars.

Fixpoint lstrip (chars : list ascii) (s : string) : string :=
  match s with
  | "" => ""
  | String a s' => if in_chars a chars then lstrip chars s' else s
  end.

Fixpoint rstrip (chars : list ascii) (s : string) : string :=
  match s with
  | "" => ""
  | String a s' =>
      match rstrip chars s' with
      | "" => if in_chars a chars then "" else String a ""
      | r => String a r
      end
  end.

(** [s.strip(chars)] *)
Definition strip (chars : list ascii) (s : string) : string :=
  rstrip chars (lstrip chars s).

(** [repr] of a list of plain identifiers, as ['%s' % list] prints it:
    every key is shown between single quotes.  The keys printed by the
    plugin are keys of [avail_factories], which hold no quote or escape. *)
Definition repr_list (l : list string) : string :=
  "[" +:+ join ", " (map (fun k => "'" +:+ k +:+ "'") l) +:+ "]".

(** [needle in hay] on strings *)
Definition substring_of (needle hay : string) : Prop :=
  exists pre post, hay = pre +:+ needle +:+ post.

End PyStr.

(** ** Exceptions and results *)

Inductive exn : Type :=
| Exception (msg : string)
| RuntimeError (msg : string)
| ValueError (msg : string)
| AssertionError (msg : string)
| AttributeError (msg : string)
| KeyError (key : string)
| StopAsyncIteration
| TestFailure (msg : string).

Inductive res (A : Type) : Type :=
| Ok (a : A)
| Raise (e : exn).
Arguments Ok {A} a.
Arguments Raise {A} e.

Definition raised {A} (r : res A) : bool :=
  match r with Ok _ => false | Raise _ => true end.

(** ** Python dicts with string keys *)

Module Dict.

(** A Python dict with string keys: insertion ordered, assignment to an
    existing key keeps the key's position. *)
Definition dict (V : Type) := list (string * V).

Fixpoint dict_get {V} (k : string) (d : dict V) : option V :=
  match d with
  | [] => None
  | (k', v) :: d' => if String.eqb k k' then Some v else dict_get k d'
  end.

Fixpoint dict_set {V} (k : string) (v : V) (d : dict V) : dict V :=
  match d with
  | [] => [(k, v)]
  | (k', v') :: d' =>
      if String.eqb k k' then (k', v) :: d' else (k', v') :: dict_set k v d'
  end.

Definition keys {V} (d : dict V) : list string := map fst d.
Definition values {V} (d : dict V) : list V := map snd d.

Definition mem {V} (k : string) (d : dict V) : bool :=
  match dict_get k d with Some _ => true | None => false end.

End Dict.
Import Dict.

(** ** Loop selection: [pytest_generate_tests] *)

Module LoopSelect.

Inductive loop_factory : Type :=
| asyncio_new_event_loop
| uvloop_new_event_loop
| tokio_new_event_loop.

(** Which optional imports succeeded ([uvloop is not None], ...). *)
Record imports := { uvloop : bool; tokio : bool }.

Record metafunc := {
  fixturenames : list string;
  option_loop : string            (* metafunc.config.option.loop *)
}.

(** The call [metafunc.parametrize("loop_factory", values, ids=ids)]. *)
Record parametrize := {
  argname : string;
  argvalues : list loop_factory;
  ids : list string
}.

Definition avail_factories (imp : imports) : dict loop_factory :=
  let d := [("pyloop", asyncio_new_event_loop)] in
  let d := if uvloop imp then dict_set "uvloop" uvloop_new_event_loop d else d in
  let d := if tokio imp then dict_set "tokio" tokio_new_event_loop d else d in
  d.

(** One iteration of [for name in loops.split(',')]. *)
Definition select_step (avail : dict loop_factory)
    (factories : dict loop_factory) (name : string)
  : res (dict loop_factory) :=
  let required := negb (PyStr.endswith "?" name) in
  let name := PyStr.strip [" "; "?"]%char name in
  match dict_get name avail with
  | None =>
      if required
      then Raise (ValueError ("Unknown loop '" +:+ name +:+
                              "', available loops: " +:+
                              PyStr.repr_list (keys factories)))
      else Ok factories                                   (* continue *)
  | Some f => Ok (dict_set name f factories)
  end.

Fixpoint select (avail : dict loop_factory)
    (factories : dict loop_factory) (names : list string)
  : res (dict loop_factory) :=
  match names with
  | [] => Ok factories
  | name :: rest =>
      match select_step avail factories name with
      | Ok factories' => select avail factories' rest
      | Raise e => Raise e
      end
  end.

(** [None] is the early [return]: nothing is parametrized. *)
Definition pytest_generate_tests (imp : imports) (m : metafunc)
  : res (option parametrize) :=
  if negb (existsb (String.eqb "loop_factory") (fixturenames m)) then Ok None
  else
    let loops := option_loop m in
    let avail := avail_factories imp in
    let loops := if String.eqb loops "all" then "pyloop,uvloop?,tokio?" else loops in
    match select avail [] (PyStr.split "," loops) with
    | Raise e => Raise e
    | Ok factories =>
        Ok (Some {| argname := "loop_factory";
                    argvalues := values factories;
                    ids := keys factories |})
    end.

Definition uses_loop_factory (loops : string) : metafunc :=
  {| fixturenames := ["loop_factory"]; option_loop := loops |}.

End LoopSelect.

(** ** The interpreter state and the effects of the plugin *)

Module Runtime.

(** Python values the plugin handles.  Objects are known by identity. *)
#[warnings="-register-all"] Inductive pyval : Type :=
| VNone
| VLoop (l : nat)                       (* an event loop *)
| VObj (id : nat)                       (* any other object *)
| VRequest (fixturenames : list string) (* a pytest FixtureRequest *)
           (fixturevalues : list (string * pyval)).

(** [bool(v)]: only [None] is falsy among these. *)
Definition truthy (v : pyval) : bool :=
  match v with VNone => false | _ => true end.

Inductive warning_category : Type :=
| RuntimeWarning
| DeprecationWarning
| ResourceWarning
| UserWarning
| OtherWarning (name : string).

(** [warnings.WarningMessage] *)
Record WarningMessage := {
  message : string;
  category : warning_category;
  filename : string;
  lineno : nat
}.

(** An async generator object, by what its successive [__anext__] calls
    do: yield a value, finish, or raise. *)
Inductive agen : Type :=
| AEnd
| AFail (e : exn)
| AYield (v : pyval) (rest : agen).

Inductive event : Type :=
| EvSetupLoop (l : nat)
| EvTeardownLoop (l : nat) (fast : bool)
| EvRunUntilComplete (l : nat)
| EvAnext (g : nat)
| EvCall (args : list pyval) (kwargs : dict pyval)
| EvTestServer (s : nat) (app : nat) (port : option nat) (loop : option pyval)
               (kwargs : dict pyval)
| EvRawTestServer (s : nat) (handler : nat) (port : option nat)
| EvStartServer (s : nat) (loop : pyval) (kwargs : dict pyval)
| EvTestClient (c : nat) (server : nat) (loop : pyval) (kwargs : dict pyval)
| EvStartClient (c : nat)
| EvClose (h : nat).

(** A callback handed to [request.addfinalizer]: the closure
    [finalizer] of [pytest_fixture_setup] with its free variables. *)
Inductive closure : Type :=
| FixtureFinalizer (_loop : pyval) (gen : nat).

Record World := {
  next_id : nat;                        (* object allocator *)
  trace : list event;                   (* calls into collaborators, oldest first *)
  captured : list WarningMessage;       (* log of catch_warnings(record=True) *)
  agens : gmap nat agen;                (* async generator objects *)
  pylists : gmap nat (list nat);        (* list objects *)
  finalizers : list closure             (* request.addfinalizer, oldest first *)
}.

Definition empty_world : World :=
  {| next_id := 0; trace := []; captured := []; agens := ∅;
     pylists := ∅; finalizers := [] |}.

(** State and exceptions: an exception keeps the state reached. *)
Definition M (A : Type) : Type := World -> res A * World.

Definition ret {A} (a : A) : M A := fun w => (Ok a, w).
Definition raise {A} (e : exn) : M A := fun w => (Raise e, w).
Definition bind {A B} (m : M A) (k : A -> M B) : M B :=
  fun w => match m w with
           | (Ok a, w') => k a w'
           | (Raise e, w') => (Raise e, w')
           end.

Declare Scope py_scope.
Delimit Scope py_scope with py.
Notation "x <- m ;; k" := (bind m (fun x => k))
  (at level 100, m at next level, right associativity) : py_scope.
Notation "m ;; k" := (bind m (fun _ => k))
  (at level 100, right associativity) : py_scope.
Open Scope py_scope.

(** [try: m  except StopAsyncIteration: handler] *)
Definition try_except_StopAsyncIteration {A} (m : M A) (handler : M A) : M A :=
  fun w => match m w with
           | (Raise StopAsyncIteration, w') => handler w'
           | r => r
           end.

Definition emit (e : event) : M unit :=
  fun w => (Ok tt, {| next_id := next_id w; trace := trace w ++ [e];
                      captured := captured w; agens := agens w;
                      pylists := pylists w; finalizers := finalizers w |}).

Definition alloc : M nat :=
  fun w => (Ok (next_id w),
            {| next_id := S (next_id w); trace := trace w;
               captured := captured w; agens := agens w;
               pylists := pylists w; finalizers := finalizers w |}).

Definition set_captured (c : list WarningMessage) (w : World) : World :=
  {| next_id := next_id w; trace := trace w; captured := c;
     agens := agens w; pylists := pylists w; finalizers := finalizers w |}.

Definition set_agens (a : gmap nat agen) (w : World) : World :=
  {| next_id := next_id w; trace := trace w; captured := captured w;
     agens := a; pylists := pylists w; finalizers := finalizers w |}.

Definition set_pylists (p : gmap nat (list nat)) (w : World) : World :=
  {| next_id := next_id w; trace := trace w; captured := captured w;
     agens := agens w; pylists := p; finalizers := finalizers w |}.

Definition set_finalizers (f : list closure) (w : World) : World :=
  {| next_id := next_id w; trace := trace w; captured := captured w;
     agens := agens w; pylists := pylists w; finalizers := f |}.

(** [warnings.warn] reaching the active recording log. *)
Definition warn (m : WarningMessage) : M unit :=
  fun w => (Ok tt, set_captured (captured w ++ [m]) w).

(** A coroutine object, by what running it on loop [l] does. *)
Definition coroutine : Type := nat -> M pyval.

(** [loop.run_until_complete(c)]; the attribute lookup fails on a value
    that is not an event loop (the exception is recorded with the name of
    the attribute, not with the text of Python's message). *)
Definition run_until_complete (loop : pyval) (c : coroutine) : M pyval :=
  match loop with
  | VLoop l => emit (EvRunUntilComplete l) ;; c l
  | _ => raise (AttributeError "run_until_complete")
  end.

(** Modelled from the spec: [setup_test_loop] of [aiohttp.test_utils]
    (the Loop Provisioner's acquire): creates and installs a new Loop. *)
Definition setup_test_loop : M nat :=
  l <- alloc ;; emit (EvSetupLoop l) ;; ret l.

(** Modelled from the spec: [teardown_test_loop] of [aiohttp.test_utils]
    (the Loop Provisioner's release): shuts the Loop down. *)
Definition teardown_test_loop (l : nat) (fast : bool) : M unit :=
  emit (EvTeardownLoop l fast).

(** *** Generators

    A generator is advanced with [next] or has an exception thrown in at
    the [yield] where it is suspended; a suspended generator therefore
    carries both continuations.  A [yield] outside any [try] has the
    throw continuation that re-raises. *)
Inductive gstep (Y : Type) : Type :=
| GReturn (w : World)
| GRaise (e : exn) (w : World)
| GYield (y : Y) (w : World)
         (next : World -> gstep Y) (throw : exn -> World -> gstep Y).
Arguments GReturn {Y} w.
Arguments GRaise {Y} e w.
Arguments GYield {Y} y w next throw.

Definition generator (Y : Type) : Type := World -> gstep Y.

(** The rest of a generator body that holds no further [yield]. *)
Definition finish {Y} (m : M unit) : World -> gstep Y :=
  fun w => match m w with
           | (Ok _, w') => GReturn w'
           | (Raise e, w') => GRaise e w'
           end.

(** [with contextlib.contextmanager(g)() as y: body y]
    ([_GeneratorContextManager.__enter__] and [__exit__]). *)
Definition with_ {Y} (g : generator Y) (body : Y -> M unit) : M unit :=
  fun w =>
    match g w with
    | GReturn w1 => (Raise (RuntimeError "generator didn't yield"), w1)
    | GRaise e w1 => (Raise e, w1)
    | GYield y w1 next throw =>
        match body y w1 with
        | (Ok _, w2) =>
            match next w2 with
            | GReturn w3 => (Ok tt, w3)
            | GRaise e w3 => (Raise e, w3)
            | GYield _ w3 _ _ => (Raise (RuntimeError "generator didn't stop"), w3)
            end
        | (Raise e, w2) =>
            match throw e w2 with
            | GReturn w3 => (Ok tt, w3)          (* exception suppressed *)
            | GRaise e' w3 => (Raise e', w3)
            | GYield _ w3 _ _ =>
                (Raise (RuntimeError "generator didn't stop after throw()"), w3)
            end
        end
    end.

(** [__enter__] alone: the value bound by [as] and the state in which the
    block starts. *)
Definition enter {Y} (g : generator Y) (w : World) : option (Y * World) :=
  match g w with
  | GYield y w1 _ _ => Some (y, w1)
  | _ => None
  end.

End Runtime.
Import Runtime.

(** ** The test invocation adapter: [pytest_pyfunc_call] *)

Module Harness.

(** ['{w.filename}:{w.lineno}:{w.message}'.format(w=w)] *)
Definition format_warning (w : WarningMessage) : string :=
  filename w +:+ ":" +:+ pretty (lineno w) +:+ ":" +:+ message w.

(** [w.category == RuntimeWarning] *)
Definition is_RuntimeWarning (w : WarningMessage) : bool :=
  match category w with RuntimeWarning => true | _ => false end.

(** The list [rw] of [_runtime_warning_context]. *)
Definition runtime_warning_lines (_warnings : list WarningMessage) : list string :=
  map format_warning (List.filter is_RuntimeWarning _warnings).

(** ['{} Runtime Warning{},\n{}'.format(len(rw), '' if len(rw) == 1 else 's',
    '\n'.join(rw))] *)
Definition aggregate_message (rw : list string) : string :=
  pretty (length rw) +:+ " Runtime Warning" +:+
  (if Nat.eqb (length rw) 1 then "" else "s") +:+ "," +:+ PyStr.nl +:+
  PyStr.join PyStr.nl rw.

(** [catch_warnings(record=True)] starts a fresh log and puts the former
    one back on exit, also when the block is left by an exception. *)
Definition _runtime_warning_context : generator unit :=
  fun w =>
    let saved := captured w in
    GYield tt (set_captured [] w)
      (fun w' =>
         let _warnings := captured w' in
         let rw := runtime_warning_lines _warnings in
         match rw with
         | [] => GReturn (set_captured saved w')
         | _ :: _ => GRaise (RuntimeError (aggregate_message rw)) (set_captured saved w')
         end)
      (fun e w' => GRaise e (set_captured saved w')).

Definition _passthrough_loop_context (loop : pyval) (fast : bool) : generator pyval :=
  fun w =>
    if truthy loop then
      (* loop already exists, pass it straight through *)
      GYield loop w (fun w' => GReturn w') (fun e w' => GRaise e w')
    else
      match setup_test_loop w with
      | (Raise e, w1) => GRaise e w1
      | (Ok l, w1) =>
          GYield (VLoop l) w1
            (finish (teardown_test_loop l fast))
            (fun e w' => GRaise e w')
      end.

Record pyfuncitem := {
  opt_fast : bool;                       (* config.getoption("--fast") *)
  is_coroutinefunction : bool;           (* asyncio.iscoroutinefunction(function) *)
  funcargs : dict pyval;
  argnames : list string;                (* _fixtureinfo.argnames *)
  obj : dict pyval -> coroutine
}.

(** [{arg: funcargs[arg] for arg in argnames}] *)
Fixpoint build_testargs (funcargs : dict pyval) (names : list string)
    (acc : dict pyval) : M (dict pyval) :=
  match names with
  | [] => ret acc
  | arg :: rest =>
      match dict_get arg funcargs with
      | None => raise (KeyError arg)
      | Some v => build_testargs funcargs rest (dict_set arg v acc)
      end
  end.

(** [funcargs.get('loop', None)] *)
Definition existing_loop (item : pyfuncitem) : pyval :=
  match dict_get "loop" (funcargs item) with Some v => v | None => VNone end.

(** The statements under the two [with]s. *)
Definition run_test_body (item : pyfuncitem) (_loop : pyval) : M unit :=
  testargs <- build_testargs (funcargs item) (argnames item) [] ;;
  _ <- run_until_complete _loop (obj item testargs) ;;
  ret tt.

(** [None] means the hook declines the call. *)
Definition pytest_pyfunc_call (item : pyfuncitem) : M (option bool) :=
  let fast := opt_fast item in
  if is_coroutinefunction item then
    with_ _runtime_warning_context (fun _ =>
      with_ (_passthrough_loop_context (existing_loop item) fast)
            (run_test_body item)) ;;
    ret (Some true)
  else ret None.

End Harness.

(** ** The fixture lifecycle adapter: [pytest_fixture_setup] *)

Module Fixtures.

Inductive async_func : Type :=
| Coroutine (f : list pyval -> dict pyval -> coroutine)   (* async def *)
| AsyncGen (f : list pyval -> dict pyval -> agen).        (* async def with yield *)

(** [Wrapped] is the closure [wrapper] with its free variables [func] and
    [strip_request]; [is_async_gen] is read off [func]. *)
Inductive fixture_func : Type :=
| Sync (f : list pyval -> dict pyval -> M pyval)
| Async (a : async_func)
| Wrapped (func : async_func) (strip_request : bool).

Record fixturedef := {
  func : fixture_func;
  argnames : list string
}.

Definition dict_del {V} (k : string) (d : dict V) : dict V :=
  List.filter (fun kv => negb (String.eqb k (fst kv))) d.

Definition name_in (k : string) (names : list string) : bool :=
  existsb (String.eqb k) names.

(** [gen.__anext__()] driven by a loop.  The exception an async generator
    body raises ends the generator; a [StopAsyncIteration] raised by the
    body itself reaches the caller as a [RuntimeError]. *)
Definition anext (gen : nat) : coroutine :=
  fun _ =>
    emit (EvAnext gen) ;;
    fun w =>
      match agens w !! gen with
      | None => (Raise (AttributeError "__anext__"), w)
      | Some AEnd => (Raise StopAsyncIteration, w)
      | Some (AFail e) =>
          (Raise match e with
                 | StopAsyncIteration =>
                     RuntimeError "async generator raised StopAsyncIteration"
                 | _ => e
                 end,
           set_agens (<[gen := AEnd]> (agens w)) w)
      | Some (AYield v rest) => (Ok v, set_agens (<[gen := rest]> (agens w)) w)
      end.

(** Calling an async generator function: a new generator object, no step
    of the body taken. *)
Definition new_agen (script : agen) : M nat :=
  g <- alloc ;;
  fun w => (Ok g, set_agens (<[g := script]> (agens w)) w).

(** The closure [finalizer]: a value the second advancement yields is the
    closure's return value, the end of the generator falls through to
    [None]. *)
Definition finalizer (_loop : pyval) (gen : nat) : M pyval :=
  try_except_StopAsyncIteration
    (run_until_complete _loop (anext gen))
    (ret VNone).

Definition run_closure (c : closure) : M pyval :=
  match c with FixtureFinalizer _loop gen => finalizer _loop gen end.

(** [request.addfinalizer] *)
Definition addfinalizer (c : closure) : M unit :=
  fun w => (Ok tt, set_finalizers (finalizers w ++ [c]) w).

(** [request.getfixturevalue(name)] *)
Definition getfixturevalue (fixturevalues : dict pyval) (name : string) : M pyval :=
  match dict_get name fixturevalues with
  | Some v => ret v
  | None => raise (KeyError name)
  end.

Definition no_loop_message : string :=
  "Asynchronous fixtures must depend on the 'loop' fixture or " +:+
  "be used in tests depending from it.".

Definition wrapper (func : async_func) (strip_request : bool)
    (args : list pyval) (kwargs : dict pyval) : M pyval :=
  match dict_get "request" kwargs with
  | None => raise (KeyError "request")
  | Some request =>
      let kwargs := if strip_request then dict_del "request" kwargs else kwargs in
      match request with
      | VRequest fixturenames fixturevalues =>
          if negb (name_in "loop" fixturenames) then
            raise (Exception no_loop_message)
          else
            _loop <- getfixturevalue fixturevalues "loop" ;;
            match func with
            | AsyncGen f =>
                gen <- new_agen (f args kwargs) ;;
                addfinalizer (FixtureFinalizer _loop gen) ;;
                run_until_complete _loop (anext gen)
            | Coroutine f =>
                run_until_complete _loop (f args kwargs)
            end
      | _ => raise (AttributeError "fixturenames")
      end
  end.

(** The descriptor is mutated in place; the new descriptor is returned. *)
Definition pytest_fixture_setup (fd : fixturedef) : fixturedef :=
  match func fd with
  | Async a =>
      if negb (name_in "request" (argnames fd)) then
        {| func := Wrapped a true; argnames := argnames fd ++ ["request"] |}
      else
        {| func := Wrapped a false; argnames := argnames fd |}
  | _ => fd
  end.

(** The host calling the descriptor's [func] with the resolved arguments.
    An async function that was not wrapped only builds its coroutine or
    generator object. *)
Definition call_fixture_func (f : fixture_func)
    (args : list pyval) (kwargs : dict pyval) : M pyval :=
  match f with
  | Sync f => f args kwargs
  | Async _ => o <- alloc ;; ret (VObj o)
  | Wrapped a strip => wrapper a strip args kwargs
  end.

End Fixtures.

(** ** The ephemeral server/client registry *)

Module Registry.

(** *** List objects shared between a factory and its teardown *)

(** [xs = []] *)
Definition new_list : M nat :=
  xs <- alloc ;;
  fun w => (Ok xs, set_pylists (<[xs := []]> (pylists w)) w).

Definition contents (xs : nat) (w : World) : list nat :=
  default [] (pylists w !! xs).

(** [xs.append(x)] *)
Definition list_append (xs x : nat) : M unit :=
  fun w => (Ok tt, set_pylists (<[xs := contents xs w ++ [x]]> (pylists w)) w).

(** [xs.pop()]: removes and returns the last item. *)
Definition list_pop (xs : nat) : M nat :=
  fun w =>
    match rev (contents xs w) with
    | [] => (Raise (Exception "pop from empty list"), w)
    | x :: before => (Ok x, set_pylists (<[xs := rev before]> (pylists w)) w)
    end.

(** [bool(xs)] *)
Definition list_nonempty (xs : nat) : M bool :=
  fun w => (Ok (negb (Nat.eqb (length (contents xs w)) 0)), w).

(** Modelled from the spec: [close()] of the test server and test client
    objects of [aiohttp.test_utils], an opaque capability of the handle.
    This is a [close()] that returns; [FallibleClose] below has the
    teardown for a [close()] that may raise. *)
Definition close (h : nat) : M unit := emit (EvClose h).

(** [while xs: await xs.pop().close()], at most [fuel] iterations. *)
Fixpoint finalize_loop (fuel : nat) (xs : nat) : M unit :=
  match fuel with
  | 0 => raise (RuntimeError "out of fuel")
  | S fuel' =>
      more <- list_nonempty xs ;;
      if more then
        h <- list_pop xs ;;
        close h ;;
        finalize_loop fuel' xs
      else ret tt
  end.

(** The coroutine [finalize]: the fuel is one more than the number of
    entries, which the loop never exhausts. *)
Definition finalize (xs : nat) : coroutine :=
  fun _ w => match finalize_loop (S (length (contents xs w))) xs w with
             | (Ok _, w') => (Ok VNone, w')
             | (Raise e, w') => (Raise e, w')
             end.

(** Modelled from the spec: the constructors and [start_server] of
    [TestServer], [RawTestServer] and [TestClient] of [aiohttp.test_utils],
    opaque capabilities: each constructor gives a new object. *)
Definition TestServer (app : nat) (port : option nat) (loop : option pyval)
    (kwargs : dict pyval) : M nat :=
  s <- alloc ;; emit (EvTestServer s app port loop kwargs) ;; ret s.

Definition RawTestServer (handler : nat) (port : option nat) : M nat :=
  s <- alloc ;; emit (EvRawTestServer s handler port) ;; ret s.

Definition TestClient (server : nat) (loop : pyval) (kwargs : dict pyval) : M nat :=
  c <- alloc ;; emit (EvTestClient c server loop kwargs) ;; ret c.

Definition start_server (s : nat) (loop : pyval) (kwargs : dict pyval) : M unit :=
  emit (EvStartServer s loop kwargs).

Definition client_start_server (c : nat) : M unit := emit (EvStartClient c).

(** *** [test_server] *)

Definition server_factory : Type := nat -> option nat -> dict pyval -> coroutine.

(** [go] of [test_server], closed over [loop] and [servers]. *)
Definition test_server_go (loop : pyval) (servers : nat) : server_factory :=
  fun app port kwargs _ =>
    server <- TestServer app port None [] ;;
    start_server server loop kwargs ;;
    list_append servers server ;;
    ret (VObj server).

(** The fixture body after its [yield], shared by the three fixtures:
    [loop.run_until_complete(finalize())]. *)
Definition registry_teardown (loop : pyval) (xs : nat) : M unit :=
  _ <- run_until_complete loop (finalize xs) ;; ret tt.

Definition test_server (loop : pyval) : generator server_factory :=
  fun w =>
    match new_list w with
    | (Raise e, w1) => GRaise e w1
    | (Ok servers, w1) =>
        GYield (test_server_go loop servers) w1
          (finish (registry_teardown loop servers))
          (fun e w' => GRaise e w')
    end.

(** *** [raw_test_server] *)

Definition raw_test_server_go (loop : pyval) (servers : nat) : server_factory :=
  fun handler port kwargs _ =>
    server <- RawTestServer handler port ;;
    start_server server loop kwargs ;;
    list_append servers server ;;
    ret (VObj server).

Definition raw_test_server (loop : pyval) : generator server_factory :=
  fun w =>
    match new_list w with
    | (Raise e, w1) => GRaise e w1
    | (Ok servers, w1) =>
        GYield (raw_test_server_go loop servers) w1
          (finish (registry_teardown loop servers))
          (fun e w' => GRaise e w')
    end.

(** *** [test_client] *)

(** The first argument of the client factory, by what the [isinstance]
    tests tell apart: an [Application], a [BaseTestServer], another
    callable, anything else.  [type_repr] is [repr(type(x))]. *)
#[warnings="-register-all"] Inductive param : Type :=
| PApplication (app : nat)
| PServer (server : nat)
| PCallable (type_repr : string)
            (call : pyval -> list pyval -> dict pyval -> M param)
| POther (type_repr : string).

Definition is_Callable_not_app_or_server (p : param) : bool :=
  match p with PCallable _ _ => true | _ => false end.

Definition type_repr_of (p : param) : string :=
  match p with
  | PApplication _ => "<class 'aiohttp.web.Application'>"
  | PServer _ => "<class 'aiohttp.test_utils.TestServer'>"
  | PCallable r _ => r
  | POther r => r
  end.

Definition client_factory : Type :=
  param -> list pyval -> option (dict pyval) -> dict pyval -> coroutine.

(** [go] of [test_client], closed over [loop] and [clients]. *)
Definition test_client_go (loop : pyval) (clients : nat) : client_factory :=
  fun __param args server_kwargs kwargs _ =>
    pk <- match __param with
          | PCallable _ call =>
              p <- call loop args kwargs ;; ret (p, [])
          | _ =>
              match args with
              | [] => ret (__param, kwargs)
              | _ :: _ => raise (AssertionError "args should be empty")
              end
          end ;;
    let '(__param, kwargs) := pk in
    client <- match __param with
              | PApplication app =>
                  let server_kwargs := default [] server_kwargs in
                  server <- TestServer app None (Some loop) server_kwargs ;;
                  TestClient server loop kwargs
              | PServer server => TestClient server loop kwargs
              | _ => raise (ValueError ("Unknown argument type: " +:+
                                        type_repr_of __param))
              end ;;
    client_start_server client ;;
    list_append clients client ;;
    ret (VObj client).

Definition test_client (loop : pyval) : generator client_factory :=
  fun w =>
    match new_list w with
    | (Raise e, w1) => GRaise e w1
    | (Ok clients, w1) =>
        GYield (test_client_go loop clients) w1
          (finish (registry_teardown loop clients))
          (fun e w' => GRaise e w')
    end.

(** *** The host's protocol for a [yield] fixture

    Modelled from the spec: the host runs the fixture up to its [yield],
    hands the value to the test and resumes the fixture when the test has
    concluded, whatever its outcome; the outcome of the test is what the
    host reports, unless only the teardown failed. *)
Definition run_with_yield_fixture {Y} (fixture : generator Y)
    (test : Y -> M unit) : M unit :=
  fun w =>
    match fixture w with
    | GReturn w1 => (Raise (ValueError "fixture did not yield"), w1)
    | GRaise e w1 => (Raise e, w1)
    | GYield y w1 next _ =>
        let '(outcome, w2) := test y w1 in
        match next w2 with
        | GReturn w3 => (outcome, w3)
        | GRaise e w3 =>
            (match outcome with Ok _ => Raise e | Raise e0 => Raise e0 end, w3)
        | GYield _ w3 _ _ =>
            (match outcome with
             | Ok _ => Raise (ValueError "fixture yielded twice")
             | Raise e0 => Raise e0
             end, w3)
        end
    end.

(** A test body that asks the factory for entries one after the other and
    then returns or raises. *)
Fixpoint create_all {A} (go : A -> coroutine) (l : nat) (requests : list A)
    : M unit :=
  match requests with
  | [] => ret tt
  | r :: rest => _ <- go r l ;; create_all go l rest
  end.

Definition scripted_test {A} (go : A -> coroutine) (l : nat)
    (requests : list A) (ending : res unit) : M unit :=
  create_all go l requests ;;
  match ending with Ok _ => ret tt | Raise e => raise e end.

(** The [EvClose] events of a trace, in order. *)
Definition closed (t : list event) : list nat :=
  omap (fun e => match e with EvClose h => Some h | _ => None end) t.

Definition server_request : Type := nat * option nat * dict pyval.
Definition client_request : Type :=
  param * list pyval * option (dict pyval) * dict pyval.

Definition call_server_factory (go : server_factory) (r : server_request)
    : coroutine :=
  let '(app, port, kwargs) := r in go app port kwargs.

Definition call_client_factory (go : client_factory) (r : client_request)
    : coroutine :=
  let '(p, args, server_kwargs, kwargs) := r in go p args server_kwargs kwargs.

End Registry.

(** ** The registry when [close()] may raise *)

Module FallibleClose.
Import Registry.

Section Closing.

(** What [close()] of each handle does: [None] when it returns, [Some e]
    when it raises [e]. *)
Variable close_outcome : nat -> option exn.

(** Modelled from the spec: [close()] of the test server and test client
    objects of [aiohttp.test_utils]; the call is made, then it returns or
    raises. *)
Definition close (h : nat) : M unit :=
  emit (EvClose h) ;;
  match close_outcome h with
  | None => ret tt
  | Some e => raise e
  end.

(** [while xs: await xs.pop().close()], at most [fuel] iterations: an
    exception of [close()] leaves the loop. *)
Fixpoint finalize_loop (fuel : nat) (xs : nat) : M unit :=
  match fuel with
  | 0 => raise (RuntimeError "out of fuel")
  | S fuel' =>
      more <- list_nonempty xs ;;
      if more then
        h <- list_pop xs ;;
        close h ;;
        finalize_loop fuel' xs
      else ret tt
  end.

Definition finalize (xs : nat) : coroutine :=
  fun _ w => match finalize_loop (S (length (contents xs w))) xs w with
             | (Ok _, w') => (Ok VNone, w')
             | (Raise e, w') => (Raise e, w')
             end.

(** [loop.run_until_complete(finalize())] *)
Definition registry_teardown (loop : pyval) (xs : nat) : M unit :=
  _ <- run_until_complete loop (finalize xs) ;; ret tt.

Definition test_server (loop : pyval) : generator server_factory :=
  fun w =>
    match new_list w with
    | (Raise e, w1) => GRaise e w1
    | (Ok servers, w1) =>
        GYield (test_server_go loop servers) w1
          (finish (registry_teardown loop servers))
          (fun e w' => GRaise e w')
    end.

Definition raw_test_server (loop : pyval) : generator server_factory :=
  fun w =>
    match new_list w with
    | (Raise e, w1) => GRaise e w1
    | (Ok servers, w1) =>
        GYield (raw_test_server_go loop servers) w1
          (finish (registry_teardown loop servers))
          (fun e w' => GRaise e w')
    end.

Definition test_client (loop : pyval) : generator client_factory :=
  fun w =>
    match new_list w with
    | (Raise e, w1) => GRaise e w1
    | (Ok clients, w1) =>
        GYield (test_client_go loop clients) w1
          (finish (registry_teardown loop clients))
          (fun e w' => GRaise e w')
    end.

End Closing.

(** The handles a run of factory calls returned, in the order of the
    calls, up to the first call that raises: the entries created. *)
Fixpoint created_by {A} (go : A -> coroutine) (l : nat) (requests : list A)
    (w : World) : list nat :=
  match requests with
  | [] => []
  | r :: rest =>
      match go r l w with
      | (Ok (VObj h), w') => h :: created_by go l rest w'
      | (Ok _, w') => created_by go l rest w'
      | (Raise _, _) => []
      end
  end.

(** The list [clients] is a local variable of the fixture: a callable
    handed to the factory has no name for it.  Whatever else the callable
    does (build and start servers, raise), it leaves that list object
    alone, and the objects it makes are new ones. *)
Definition keeps_list (xs : nat) (p : param) : Prop :=
  match p with
  | PCallable _ call =>
      forall loop args kwargs w,
        pylists (snd (call loop args kwargs w)) !! xs = pylists w !! xs
        /\ next_id w <= next_id (snd (call loop args kwargs w))
  | _ => True
  end.

(** One call of a factory, seen from the registry list [xs]: it returns
    the handle of a new object and has appended it, or raises and leaves
    the list as it was. *)
Definition tracks {A} (go : A -> coroutine) (xs : nat) (req : A) : Prop :=
  forall l w,
    match go req l w with
    | (Ok v, w') =>
        exists h, v = VObj h
                  /\ next_id w <= h < next_id w'
                  /\ contents xs w' = contents xs w ++ [h]
    | (Raise _, w') =>
        next_id w <= next_id w' /\ contents xs w' = contents xs w
    end.

(** A fixture driven by the host around a scripted test, and the scripted
    test alone from the state in which the fixture hands its factory
    over. *)
Definition fixture_run {A Y} (fixture : generator Y) (call : Y -> A -> coroutine)
    (l : nat) (requests : list A) (ending : res unit) (w0 : World)
    : res unit * World :=
  run_with_yield_fixture fixture
    (fun go => scripted_test (call go) l requests ending) w0.

Definition test_run {A} (go : A -> coroutine) (l : nat) (requests : list A)
    (ending : res unit) (w0 : World) : res unit * World :=
  scripted_test go l requests ending (snd (new_list w0)).

End FallibleClose.

(** ** Sample inputs *)

Module Samples.
Import Harness.

Definition never_awaited : WarningMessage :=
  {| message := "coroutine 'fetch' was never awaited";
     category := RuntimeWarning;
     filename := "test_api.py";
     lineno := 12 |}.

Definition deprecated : WarningMessage :=
  {| message := "old call";
     category := DeprecationWarning;
     filename := "helpers.py";
     lineno := 3 |}.

(** An async test without a [loop] fixture whose body raises. *)
Definition failing_item : pyfuncitem :=
  {| opt_fast := false;
     is_coroutinefunction := true;
     funcargs := [];
     argnames := [];
     obj := fun _ _ => raise (TestFailure "boom") |}.

(** An async test using the [loop] fixture whose body leaves a coroutine
    un-awaited and returns. *)
Definition leaky_item : pyfuncitem :=
  {| opt_fast := true;
     is_coroutinefunction := true;
     funcargs := [("loop", VLoop 7); ("x", VObj 3)];
     argnames := ["x"];
     obj := fun _ _ => warn never_awaited ;; warn deprecated ;; ret VNone |}.

(** The same body, raising after the warning was recorded. *)
Definition leaky_failing_item : pyfuncitem :=
  {| opt_fast := true;
     is_coroutinefunction := true;
     funcargs := [("loop", VLoop 7)];
     argnames := [];
     obj := fun _ _ => warn never_awaited ;; raise (TestFailure "assert 1 == 2") |}.

(** An async test without a [loop] fixture whose body returns. *)
Definition passing_item : pyfuncitem :=
  {| opt_fast := true;
     is_coroutinefunction := true;
     funcargs := [("x", VObj 3)];
     argnames := ["x"];
     obj := fun _ _ => ret VNone |}.

(** An async generator fixture that yields twice. *)
Definition two_yields : Fixtures.fixturedef :=
  {| Fixtures.func :=
       Fixtures.Async
         (Fixtures.AsyncGen (fun _ _ => AYield (VObj 1) (AYield (VObj 2) AEnd)));
     Fixtures.argnames := ["x"] |}.

Definition request_with_loop : pyval :=
  VRequest ["loop"; "x"] [("loop", VLoop 7)].

Definition request_without_loop : pyval :=
  VRequest ["x"] [].

(** A test that asks the client factory for three clients: for an
    application, for a server, through a callable building an application. *)
Definition three_clients : list Registry.client_request :=
  [(Registry.PApplication 10, [], None, []);
   (Registry.PServer 11, [], None, []);
   (Registry.PCallable "<class 'function'>"
      (fun _ _ _ => ret (Registry.PApplication 5)), [], None, [])].

End Samples.

(** ** Command-line options: [pytest_addoption], [fast], [loop_debug] *)

Module Options.

Inductive optvalue : Type :=
| OBool (b : bool)
| OStr (s : string).

Inductive action : Type :=
| store
| store_true.

(** One [parser.addoption(name, action=..., default=..., help=...)]. *)
Record optdecl := {
  opt_name : string;
  opt_action : action;
  opt_default : optvalue;
  opt_help : string
}.

Definition parser : Type := list optdecl.

Definition addoption (p : parser) (d : optdecl) : parser := p ++ [d].

Definition pytest_addoption (p : parser) : parser :=
  let p := addoption p
             {| opt_name := "--fast"; opt_action := store_true;
                opt_default := OBool false;
                opt_help := "run tests faster by disabling extra checks" |} in
  let p := addoption p
             {| opt_name := "--loop"; opt_action := store;
                opt_default := OStr "pyloop";
                opt_help := "run tests with specific loop: pyloop, uvloop, tokio or all" |} in
  let p := addoption p
             {| opt_name := "--enable-loop-debug"; opt_action := store_true;
                opt_default := OBool false;
                opt_help := "enable event loop debug mode" |} in
  p.

(** [config.getoption(name)] as the host answers it: the value given on
    the command line, else the default of the first declaration of that
    name. *)
Definition getoption (p : parser) (given : dict optvalue) (name : string)
    : option optvalue :=
  match dict_get name given with
  | Some v => Some v
  | None =>
      match List.find (fun d => String.eqb name (opt_name d)) p with
      | Some d => Some (opt_default d)
      | None => None
      end
  end.

(** The fixtures [fast] and [loop_debug]. *)
Definition fast (p : parser) (given : dict optvalue) : option optvalue :=
  getoption p given "--fast".

Definition loop_debug (p : parser) (given : dict optvalue) : option optvalue :=
  getoption p given "--enable-loop-debug".

End Options.

(** ** Observations used to state properties *)

Module Observe.

(** A piece of the loop option that lacks the [?] marker and whose
    stripped name is not a key of [avail]. *)
Definition unknown_required (avail : dict LoopSelect.loop_factory)
    (name : string) : Prop :=
  PyStr.endswith "?" name = false
  /\ dict_get (PyStr.strip [" "; "?"]%char name) avail = None.

End Observe.

(** ** Further sample inputs *)

Module MoreSamples.
Import Harness.

(** An async test on the [loop] fixture whose body only triggers a
    deprecation warning. *)
Definition deprecated_item : pyfuncitem :=
  {| opt_fast := false;
     is_coroutinefunction := true;
     funcargs := [("loop", VLoop 7); ("x", VObj 3)];
     argnames := ["x"];
     obj := fun _ _ => warn Samples.deprecated ;; ret VNone |}.

(** An async test that declares an argument the host did not resolve. *)
Definition unresolved_item : pyfuncitem :=
  {| opt_fast := false;
     is_coroutinefunction := true;
     funcargs := [("loop", VLoop 7); ("x", VObj 3)];
     argnames := ["x"; "y"; "z"];
     obj := fun _ _ => ret VNone |}.

(** A coroutine fixture returning its argument [x]. *)
Definition echo_fixture : Fixtures.fixturedef :=
  {| Fixtures.func :=
       Fixtures.Async
         (Fixtures.Coroutine
            (fun _ kwargs _ =>
               match dict_get "x" kwargs with
               | Some v => ret v
               | None => raise (KeyError "x")
               end));
     Fixtures.argnames := ["x"] |}.

(** An async generator fixture whose body raises before its [yield]. *)
Definition broken_setup : Fixtures.fixturedef :=
  {| Fixtures.func :=
       Fixtures.Async
         (Fixtures.AsyncGen (fun _ _ => AFail (TestFailure "no database")));
     Fixtures.argnames := ["request"] |}.

(** A well-formed two-phase async generator fixture. *)
Definition one_yield : Fixtures.fixturedef :=
  {| Fixtures.func :=
       Fixtures.Async (Fixtures.AsyncGen (fun _ _ => AYield (VObj 1) AEnd));
     Fixtures.argnames := ["x"] |}.

(** A callable that builds the server itself and hands it to the
    client factory. *)
Definition server_builder : Registry.param :=
  Registry.PCallable "<class 'function'>"
    (fun loop _ _ =>
       s <- Registry.TestServer 5 None (Some loop) [] ;;
       ret (Registry.PServer s)).

Definition clients_with_builder : list Registry.client_request :=
  [(Registry.PApplication 10, [], None, []);
   (server_builder, [], None, []);
   (Registry.PServer 11, [], None, [])].

Definition three_servers : list Registry.server_request :=
  [(10, None, []); (11, Some 80, []); (12, None, [])].

(** Every [close()] returns. *)
Definition closes_return : nat -> option exn := fun _ => None.

(** The [close()] of the object 3 raises. *)
Definition third_close_raises : nat -> option exn :=
  fun h => if Nat.eqb h 3 then Some (Exception "connection lost") else None.

End MoreSamples.

(** * Properties *)

(** ** Loop selection *)

Section LoopSelection.
Import LoopSelect.

Example split_two : PyStr.split "," "pyloop,uvloop?" = ["pyloop"; "uvloop?"].
Proof. reflexivity. Qed.

Example split_empty_piece : PyStr.split "," "a,,b," = ["a"; ""; "b"; ""].
Proof. reflexivity. Qed.

Example strip_marker : PyStr.strip [" "; "?"]%char " uvloop? ?" = "uvloop".
Proof. reflexivity. Qed.

Example duplicate_name_once :
  pytest_generate_tests {| uvloop := true; tokio := false |}
    (uses_loop_factory "uvloop,pyloop,uvloop")
  = Ok (Some {| argname := "loop_factory";
                argvalues := [uvloop_new_event_loop; asyncio_new_event_loop];
                ids := ["uvloop"; "pyloop"] |}).
Proof. reflexivity. Qed.

Example no_loop_factory_no_parametrize imp loops :
  pytest_generate_tests imp {| fixturenames := ["loop"]; option_loop := loops |}
  = Ok None.
Proof. reflexivity. Qed.

Lemma keys_dict_set {V} (k k0 : string) (v : V) (d : dict V) :
  In k (keys (dict_set k0 v d)) -> k = k0 \/ In k (keys d).
Proof.
  induction d as [|[k' v'] d IH]; simpl.
  - intros [->|[]]. now left.
  - destruct (String.eqb k0 k') eqn:E; simpl.
    + intros H. now right.
    + intros [->|H]; [right; now left|].
      destruct (IH H) as [->|H']; [now left|right; now right].
Qed.

Lemma select_step_optional avail facs name :
  PyStr.endswith "?" name = true ->
  dict_get (PyStr.strip [" "; "?"]%char name) avail = None ->
  select_step avail facs name = Ok facs.
Proof.
  intros Hopt Hun. unfold select_step. now rewrite Hun, Hopt.
Qed.

Lemma select_app avail facs pre post :
  select avail facs (pre ++ post) =
  match select avail facs pre with
  | Ok facs' => select avail facs' post
  | Raise e => Raise e
  end.
Proof.
  revert facs. induction pre as [|n pre IH]; intros facs; simpl; [easy|].
  destruct (select_step avail facs n); [apply IH|easy].
Qed.

(** Reaching a required name that is not available stops the selection;
    the message prints the keys selected so far. *)
Lemma select_unknown_required avail facs pre name post facs' :
  select avail facs pre = Ok facs' ->
  PyStr.endswith "?" name = false ->
  dict_get (PyStr.strip [" "; "?"]%char name) avail = None ->
  select avail facs (pre ++ name :: post) =
  Raise (ValueError ("Unknown loop '" +:+ PyStr.strip [" "; "?"]%char name +:+
                     "', available loops: " +:+ PyStr.repr_list (keys facs'))).
Proof.
  intros Hpre Hreq Hun. rewrite select_app, Hpre. simpl.
  unfold select_step. now rewrite Hun, Hreq.
Qed.

Lemma select_keys avail names : forall facs facs',
  select avail facs names = Ok facs' ->
  forall k, In k (keys facs') ->
            In k (keys facs) \/ dict_get k avail <> None.
Proof.
  induction names as [|n names IH]; simpl; intros facs facs' H k Hk.
  - injection H as <-. now left.
  - destruct (select_step avail facs n) as [f1|e] eqn:E; [|discriminate].
    destruct (IH _ _ H k Hk) as [Hin|Hav]; [|now right].
    unfold select_step in E.
    destruct (dict_get (PyStr.strip [" "; "?"]%char n) avail) as [f|] eqn:G.
    + injection E as <-. destruct (keys_dict_set _ _ _ _ Hin) as [->|Hin'].
      * right. now rewrite G.
      * now left.
    + destruct (negb (PyStr.endswith "?" n)); [discriminate|].
      injection E as <-. now left.
Qed.

(** C8: a name carrying the soft-require marker whose implementation is
    not available is skipped silently: its iteration changes nothing and
    raises nothing, the selection is the one of the list without it, and
    no parametrization carries its id.  The value [all] selects what
    [pyloop,uvloop?,tokio?] selects, and [pyloop,uvloop?] without uvloop
    gives exactly the parametrization [pyloop]. *)
Theorem C8_soft_require_skipped
    (imp : imports) (fx : list string) (pre post : list string)
    (name : string) (facs : dict loop_factory) :
  PyStr.endswith "?" name = true ->
  dict_get (PyStr.strip [" "; "?"]%char name) (avail_factories imp) = None ->
  select_step (avail_factories imp) facs name = Ok facs
  /\ select (avail_factories imp) facs (pre ++ name :: post)
     = select (avail_factories imp) facs (pre ++ post)
  /\ (forall loops p,
        pytest_generate_tests imp {| fixturenames := fx; option_loop := loops |}
        = Ok (Some p) ->
        ~ In (PyStr.strip [" "; "?"]%char name) (ids p))
  /\ pytest_generate_tests imp {| fixturenames := fx; option_loop := "all" |}
     = pytest_generate_tests imp
         {| fixturenames := fx; option_loop := "pyloop,uvloop?,tokio?" |}
  /\ (In "loop_factory" fx -> uvloop imp = false ->
      pytest_generate_tests imp
        {| fixturenames := fx; option_loop := "pyloop,uvloop?" |}
      = Ok (Some {| argname := "loop_factory";
                    argvalues := [asyncio_new_event_loop];
                    ids := ["pyloop"] |})).
Proof.
  intros Hopt Hun.
  pose proof (select_step_optional _ facs _ Hopt Hun) as Hstep.
  split; [exact Hstep|]. split; [|split; [|split]].
  - rewrite !select_app. destruct (select _ facs pre) as [f1|e]; [|easy].
    simpl. now rewrite (select_step_optional _ f1 _ Hopt Hun).
  - intros loops p H Hin. unfold pytest_generate_tests in H. simpl in H.
    destruct (negb _); [discriminate|].
    destruct (select _ _ _) as [f1|e] eqn:E; [|discriminate].
    injection H as <-. simpl in Hin.
    destruct (select_keys _ _ _ _ E _ Hin) as [[]|Hav]. now apply Hav.
  - unfold pytest_generate_tests. simpl. reflexivity.
  - intros Hfx Hu. unfold pytest_generate_tests. cbn [fixturenames option_loop].
    assert (existsb (String.eqb "loop_factory") fx = true) as ->.
    { apply existsb_exists. exists "loop_factory". split; [exact Hfx|].
      apply String.eqb_refl. }
    destruct imp as [u t]. simpl in Hu. subst u. destruct t; reflexivity.
Qed.

Lemma C8_soft_require_skipped_witness :
  select (avail_factories {| uvloop := false; tokio := false |}) []
    (["pyloop"] ++ "uvloop?" :: [])
  = select (avail_factories {| uvloop := false; tokio := false |}) []
      (["pyloop"] ++ [])
  /\ pytest_generate_tests {| uvloop := false; tokio := false |}
       (uses_loop_factory "pyloop,uvloop?")
     = Ok (Some {| argname := "loop_factory";
                   argvalues := [asyncio_new_event_loop];
                   ids := ["pyloop"] |}).
Proof.
  destruct (C8_soft_require_skipped {| uvloop := false; tokio := false |}
              ["loop_factory"] ["pyloop"] [] "uvloop?" [] eq_refl eq_refl)
    as (_ & Hsel & _ & _ & Hex).
  split; [exact Hsel|]. apply Hex; [now left|reflexivity].
Defined.

(** C3, evaluated: for the required unknown name [bogus] the generation
    stops with a [ValueError] that names [bogus]; the list it prints is
    the one of the factories selected so far, here empty, although
    [pyloop] is available. *)
Theorem C3_unknown_required_message (imp : imports) :
  pytest_generate_tests imp (uses_loop_factory "bogus")
  = Raise (ValueError "Unknown loop 'bogus', available loops: []")
  /\ In "pyloop" (keys (avail_factories imp)).
Proof.
  destruct imp as [[] []]; split; try reflexivity; simpl; auto.
Qed.

End LoopSelection.

(** ** The test invocation adapter *)

Section Invocation.
Import Harness.

Lemma append_assoc (a b c : string) : (a +:+ b) +:+ c = a +:+ (b +:+ c).
Proof.
  induction a as [|x a IH]; [reflexivity|].
  change (String x ((a +:+ b) +:+ c) = String x (a +:+ (b +:+ c))).
  now rewrite IH.
Qed.

Lemma append_empty_r (s : string) : s +:+ "" = s.
Proof.
  induction s as [|x s IH]; [reflexivity|].
  change (String x (s +:+ "") = String x s). now rewrite IH.
Qed.

Lemma substring_of_refl (s : string) : PyStr.substring_of s s.
Proof.
  exists "", "". change (s = s +:+ ""). now rewrite append_empty_r.
Qed.

Lemma substring_of_prefix (p s t : string) :
  PyStr.substring_of s t -> PyStr.substring_of s (p +:+ t).
Proof.
  intros (a & b & ->). exists (p +:+ a), b. now rewrite append_assoc.
Qed.

Lemma substring_of_suffix (p s t : string) :
  PyStr.substring_of s t -> PyStr.substring_of s (t +:+ p).
Proof.
  intros (a & b & ->). exists a, (b +:+ p). now rewrite !append_assoc.
Qed.

Lemma substring_of_join (sep x : string) (l : list string) :
  In x l -> PyStr.substring_of x (PyStr.join sep l).
Proof.
  induction l as [|y l IH]; [intros []|].
  intros [->|Hin].
  - destruct l as [|z l]; simpl; [apply substring_of_refl|].
    apply substring_of_suffix, substring_of_refl.
  - destruct l as [|z l]; [destruct Hin|].
    change (PyStr.join sep (y :: z :: l))
      with (y +:+ sep +:+ PyStr.join sep (z :: l)).
    apply substring_of_prefix, substring_of_prefix, IH, Hin.
Qed.

(** What the two context managers do around a block. *)
Lemma with_passthrough (v : pyval) (fast : bool) (body : pyval -> M unit) (w : World) :
  with_ (_passthrough_loop_context v fast) body w =
  if truthy v then
    match body v w with
    | (Ok _, w') => (Ok tt, w')
    | (Raise e, w') => (Raise e, w')
    end
  else
    match body (VLoop (next_id w)) (snd (setup_test_loop w)) with
    | (Ok _, w') => (Ok tt, snd (teardown_test_loop (next_id w) fast w'))
    | (Raise e, w') => (Raise e, w')
    end.
Proof.
  unfold with_, _passthrough_loop_context.
  destruct (truthy v).
  - destruct (body v w) as [[u|e] w']; reflexivity.
  - cbn. destruct (body _ _) as [[u|e] w']; reflexivity.
Qed.

Lemma with_runtime_warning (body : unit -> M unit) (w : World) :
  with_ _runtime_warning_context body w =
  match body tt (set_captured [] w) with
  | (Ok _, w') =>
      match runtime_warning_lines (captured w') with
      | [] => (Ok tt, set_captured (captured w) w')
      | rw => (Raise (RuntimeError (aggregate_message rw)),
               set_captured (captured w) w')
      end
  | (Raise e, w') => (Raise e, set_captured (captured w) w')
  end.
Proof.
  unfold with_, _runtime_warning_context.
  destruct (body tt _) as [[u|e] w']; [|reflexivity].
  destruct (runtime_warning_lines (captured w')); reflexivity.
Qed.

Lemma enter_passthrough (v : pyval) (fast : bool) (w : World) :
  enter (_passthrough_loop_context v fast) w =
  Some (if truthy v then (v, w)
        else (VLoop (next_id w), snd (setup_test_loop w))).
Proof.
  unfold enter, _passthrough_loop_context. destruct (truthy v); reflexivity.
Qed.

(** The outcome of the hook, by the outcome of the block under the two
    [with]s. *)
Lemma pytest_pyfunc_call_block (item : pyfuncitem) (w0 : World)
    (lp : pyval) (w2 w3 : World) (r : res unit) :
  is_coroutinefunction item = true ->
  enter (_passthrough_loop_context (existing_loop item) (opt_fast item))
        (set_captured [] w0) = Some (lp, w2) ->
  run_test_body item lp w2 = (r, w3) ->
  pytest_pyfunc_call item w0 =
  match r with
  | Raise e => (Raise e, set_captured (captured w0) w3)
  | Ok _ =>
      let w4 := if truthy (existing_loop item) then w3
                else snd (teardown_test_loop (next_id w0) (opt_fast item) w3) in
      match runtime_warning_lines (captured w4) with
      | [] => (Ok (Some true), set_captured (captured w0) w4)
      | rw => (Raise (RuntimeError (aggregate_message rw)),
               set_captured (captured w0) w4)
      end
  end.
Proof.
  intros Hco Hent Hbody. unfold pytest_pyfunc_call. rewrite Hco.
  unfold bind. rewrite with_runtime_warning, with_passthrough.
  rewrite enter_passthrough in Hent.
  set (w1 := snd (setup_test_loop (set_captured [] w0))) in *.
  destruct (truthy (existing_loop item)); injection Hent as <- <-.
  - rewrite Hbody. destruct r as [[]|e]; [|reflexivity]. cbn zeta.
    destruct (runtime_warning_lines (captured w3)); reflexivity.
  - change (next_id (set_captured [] w0)) with (next_id w0).
    rewrite Hbody. destruct r as [[]|e]; [|reflexivity]. cbn zeta.
    destruct (runtime_warning_lines _); reflexivity.
Qed.

End Invocation.

Section InvocationClaims.
Import Harness Samples.

(** C4: when the test body has returned and the log of the run holds at
    least one [RuntimeWarning], the hook raises one [RuntimeError] whose
    message is the aggregate of all of them and holds the text
    [file:line:message] of each. *)
Theorem C4_runtime_warnings_fail_test
    (item : pyfuncitem) (w0 : World) (lp : pyval) (w2 w3 : World) :
  is_coroutinefunction item = true ->
  enter (_passthrough_loop_context (existing_loop item) (opt_fast item))
        (set_captured [] w0) = Some (lp, w2) ->
  run_test_body item lp w2 = (Ok tt, w3) ->
  List.filter is_RuntimeWarning (captured w3) <> [] ->
  exists msg,
    fst (pytest_pyfunc_call item w0) = Raise (RuntimeError msg)
    /\ msg = aggregate_message (runtime_warning_lines (captured w3))
    /\ forall wm, In wm (captured w3) -> category wm = RuntimeWarning ->
         PyStr.substring_of
           (filename wm +:+ ":" +:+ pretty (lineno wm) +:+ ":" +:+ message wm)
           msg.
Proof.
  intros Hco Hent Hbody Hrw.
  rewrite (pytest_pyfunc_call_block item w0 lp w2 w3 (Ok tt) Hco Hent Hbody).
  cbn zeta.
  assert (captured (if truthy (existing_loop item) then w3
                    else snd (teardown_test_loop (next_id w0) (opt_fast item) w3))
          = captured w3) as -> by (destruct (truthy _); reflexivity).
  exists (aggregate_message (runtime_warning_lines (captured w3))).
  split; [|split; [reflexivity|]].
  - unfold runtime_warning_lines in *.
    destruct (List.filter is_RuntimeWarning (captured w3)); [congruence|reflexivity].
  - intros wm Hin Hcat. unfold aggregate_message.
    do 5 apply substring_of_prefix. apply substring_of_join.
    unfold runtime_warning_lines.
    apply (in_map format_warning), filter_In. split; [exact Hin|].
    unfold is_RuntimeWarning. now rewrite Hcat.
Qed.

Lemma C4_runtime_warnings_fail_test_witness :
  fst (pytest_pyfunc_call leaky_item empty_world)
  = Raise (RuntimeError
             ("1 Runtime Warning," +:+ PyStr.nl +:+
              "test_api.py:12:coroutine 'fetch' was never awaited")).
Proof.
  destruct (C4_runtime_warnings_fail_test leaky_item empty_world
              (VLoop 7) (set_captured [] empty_world)
              (snd (run_test_body leaky_item (VLoop 7)
                      (set_captured [] empty_world))))
    as (msg & Hr & Hmsg & _);
    [reflexivity|reflexivity|reflexivity|discriminate|].
  rewrite Hr, Hmsg. reflexivity.
Defined.

(** C10: when the test body raises, the hook raises that same exception,
    whatever the log of the run holds: no aggregate error takes its
    place. *)
Theorem C10_body_exception_propagates
    (item : pyfuncitem) (w0 : World) (lp : pyval) (w2 w3 : World) (e : exn) :
  is_coroutinefunction item = true ->
  enter (_passthrough_loop_context (existing_loop item) (opt_fast item))
        (set_captured [] w0) = Some (lp, w2) ->
  run_test_body item lp w2 = (Raise e, w3) ->
  fst (pytest_pyfunc_call item w0) = Raise e.
Proof.
  intros Hco Hent Hbody.
  now rewrite (pytest_pyfunc_call_block item w0 lp w2 w3 (Raise e) Hco Hent Hbody).
Qed.

Lemma C10_body_exception_propagates_witness :
  List.filter is_RuntimeWarning
    (captured (snd (run_test_body leaky_failing_item (VLoop 7)
                      (set_captured [] empty_world)))) = [never_awaited]
  /\ fst (pytest_pyfunc_call leaky_failing_item empty_world)
     = Raise (TestFailure "assert 1 == 2").
Proof.
  split; [reflexivity|].
  apply (C10_body_exception_propagates leaky_failing_item empty_world
           (VLoop 7) (set_captured [] empty_world)
           (snd (run_test_body leaky_failing_item (VLoop 7)
                   (set_captured [] empty_world))));
    reflexivity.
Defined.

(** C1, at a failing input: no [loop] fixture is supplied, the harness
    creates loop 0, the body raises, and the hook returns control with
    that exception and with no [teardown_test_loop] call made, where the
    claim has the loop released on the failure path too. *)
Theorem C1_raising_body_skips_teardown :
  existing_loop failing_item = VNone
  /\ fst (pytest_pyfunc_call failing_item empty_world) = Raise (TestFailure "boom")
  /\ trace (snd (pytest_pyfunc_call failing_item empty_world))
     = [EvSetupLoop 0; EvRunUntilComplete 0]
  /\ forall fast,
       ~ In (EvTeardownLoop 0 fast)
            (trace (snd (pytest_pyfunc_call failing_item empty_world))).
Proof.
  repeat split; try reflexivity.
  intros fast [H|[H|[]]]; discriminate.
Qed.

(** X19: when the harness created the loop and the block under the two
    [with]s returns, [teardown_test_loop] is called on that very loop,
    with the [--fast] flag, as the next thing after the block and before
    the hook returns: before the check of the warnings log, hence also
    when the hook then raises the aggregate error. *)
Theorem created_loop_released_on_return
    (item : pyfuncitem) (w0 : World) (lp : pyval) (w2 w3 : World) :
  is_coroutinefunction item = true ->
  truthy (existing_loop item) = false ->
  enter (_passthrough_loop_context (existing_loop item) (opt_fast item))
        (set_captured [] w0) = Some (lp, w2) ->
  run_test_body item lp w2 = (Ok tt, w3) ->
  lp = VLoop (next_id w0)
  /\ trace w2 = trace w0 ++ [EvSetupLoop (next_id w0)]
  /\ trace (snd (pytest_pyfunc_call item w0))
     = trace w3 ++ [EvTeardownLoop (next_id w0) (opt_fast item)].
Proof.
  intros Hco Hno Hent Hbody.
  rewrite (pytest_pyfunc_call_block item w0 lp w2 w3 (Ok tt) Hco Hent Hbody).
  rewrite enter_passthrough, Hno in Hent. injection Hent as <- <-.
  split; [reflexivity|]. split; [reflexivity|].
  cbn zeta. rewrite Hno.
  destruct (runtime_warning_lines _); reflexivity.
Qed.

Lemma created_loop_released_on_return_witness :
  trace (snd (pytest_pyfunc_call passing_item empty_world))
  = [EvSetupLoop 0; EvRunUntilComplete 0; EvTeardownLoop 0 true].
Proof.
  destruct (created_loop_released_on_return passing_item empty_world (VLoop 0)
              (snd (setup_test_loop (set_captured [] empty_world)))
              (snd (run_test_body passing_item (VLoop 0)
                      (snd (setup_test_loop (set_captured [] empty_world))))))
    as (_ & _ & Ht); [reflexivity|reflexivity|reflexivity|reflexivity|].
  rewrite Ht. reflexivity.
Defined.

(** C6, at a failing input: with no loop supplied the context creates
    loop 0 and yields it, the block raises, and the scope is left with
    that exception and with no teardown of loop 0, where the claim has
    the created loop torn down when the scope exits. *)
Theorem C6_raising_block_skips_teardown :
  enter (_passthrough_loop_context VNone false) empty_world
  = Some (VLoop 0, snd (setup_test_loop empty_world))
  /\ fst (with_ (_passthrough_loop_context VNone false)
            (fun _ => raise (TestFailure "boom")) empty_world)
     = Raise (TestFailure "boom")
  /\ trace (snd (with_ (_passthrough_loop_context VNone false)
                   (fun _ => raise (TestFailure "boom")) empty_world))
     = [EvSetupLoop 0].
Proof. repeat split. Qed.

(** X20: a supplied loop is yielded as it is, and leaving the scope does
    nothing more, on either exit; with none supplied a new loop is
    created and yielded, and when the block ends normally that loop is
    torn down, with the flag given, as the last thing of the scope. *)
Theorem passthrough_or_manage_on_return
    (loop : pyval) (fast : bool) (body : pyval -> M unit) (w : World) :
  if truthy loop then
    enter (_passthrough_loop_context loop fast) w = Some (loop, w)
    /\ with_ (_passthrough_loop_context loop fast) body w
       = match body loop w with
         | (Ok _, w') => (Ok tt, w')
         | (Raise e, w') => (Raise e, w')
         end
  else
    let l := next_id w in
    let w1 := snd (setup_test_loop w) in
    enter (_passthrough_loop_context loop fast) w = Some (VLoop l, w1)
    /\ trace w1 = trace w ++ [EvSetupLoop l]
    /\ match body (VLoop l) w1 with
       | (Ok _, w') =>
           fst (with_ (_passthrough_loop_context loop fast) body w) = Ok tt
           /\ trace (snd (with_ (_passthrough_loop_context loop fast) body w))
              = trace w' ++ [EvTeardownLoop l fast]
       | (Raise _, _) => True
       end.
Proof.
  rewrite with_passthrough, enter_passthrough.
  destruct (truthy loop); [split; reflexivity|].
  cbn zeta. split; [reflexivity|]. split; [reflexivity|].
  destruct (body _ _) as [[u|e] w']; [split; reflexivity|exact I].
Qed.

End InvocationClaims.

(** ** The fixture lifecycle adapter *)

Section FixtureClaims.
Import Fixtures Samples.

Lemma name_in_In (k : string) (names : list string) :
  name_in k names = true <-> In k names.
Proof.
  unfold name_in. rewrite existsb_exists. split.
  - intros (x & Hin & Heq). apply String.eqb_eq in Heq. now subst.
  - intros Hin. exists k. split; [exact Hin|apply String.eqb_refl].
Qed.

Lemma pytest_fixture_setup_async (fd : fixturedef) (a : async_func) :
  func fd = Async a ->
  func (pytest_fixture_setup fd)
  = Wrapped a (negb (name_in "request" (argnames fd)))
  /\ In "request" (argnames (pytest_fixture_setup fd)).
Proof.
  intros H. unfold pytest_fixture_setup. rewrite H.
  destruct (name_in "request" (argnames fd)) eqn:E; simpl; split; try reflexivity.
  - now apply name_in_In.
  - apply in_or_app. right. now left.
Qed.

Example sync_fixture_untouched f names :
  pytest_fixture_setup {| func := Sync f; argnames := names |}
  = {| func := Sync f; argnames := names |}.
Proof. reflexivity. Qed.

(** C5: an async fixture, single or multistep, called with a request whose
    fixture names do not hold [loop] raises the usage error at once: the
    state is the one before the call, so no part of the fixture ran, no
    loop was driven or created, no generator or finalizer was made. *)
Theorem C5_async_fixture_needs_loop
    (fd : fixturedef) (a : async_func) (args : list pyval) (kwargs : dict pyval)
    (names : list string) (values : dict pyval) (w : World) :
  func fd = Async a ->
  dict_get "request" kwargs = Some (VRequest names values) ->
  ~ In "loop" names ->
  call_fixture_func (func (pytest_fixture_setup fd)) args kwargs w
  = (Raise (Exception
              "Asynchronous fixtures must depend on the 'loop' fixture or be used in tests depending from it."),
     w).
Proof.
  intros Hf Hreq Hno.
  destruct (pytest_fixture_setup_async fd a Hf) as [-> _].
  unfold call_fixture_func, wrapper. rewrite Hreq.
  destruct (name_in "loop" names) eqn:E.
  - exfalso. apply Hno. now apply name_in_In.
  - reflexivity.
Qed.

Lemma C5_async_fixture_needs_loop_witness :
  call_fixture_func (func (pytest_fixture_setup two_yields)) []
    [("request", request_without_loop)] empty_world
  = (Raise (Exception
              "Asynchronous fixtures must depend on the 'loop' fixture or be used in tests depending from it."),
     empty_world).
Proof.
  eapply (C5_async_fixture_needs_loop two_yields); [reflexivity|reflexivity|].
  intros [H|[]]. discriminate.
Defined.

(** The multistep branch of [wrapper]: the generator object is new, the
    finalizer closed over it and over the request's loop is registered,
    and the first value is what the fixture returns. *)
Lemma wrapper_async_gen_registers
    (f : list pyval -> dict pyval -> agen) (args : list pyval)
    (kwargs : dict pyval) (names : list string) (values : dict pyval)
    (l : nat) (v : pyval) (rest : agen) (w : World) :
  dict_get "request" kwargs = Some (VRequest names values) ->
  In "loop" names ->
  dict_get "loop" values = Some (VLoop l) ->
  f args kwargs = AYield v rest ->
  let '(r, w') := wrapper (AsyncGen f) false args kwargs w in
  r = Ok v
  /\ finalizers w' = finalizers w ++ [FixtureFinalizer (VLoop l) (next_id w)]
  /\ agens w' !! next_id w = Some rest
  /\ trace w' = trace w ++ [EvRunUntilComplete l; EvAnext (next_id w)].
Proof.
  intros Hreq Hin Hl Hf. unfold wrapper. rewrite Hreq.
  apply name_in_In in Hin. rewrite Hin. cbn [negb].
  unfold getfixturevalue. rewrite Hl.
  cbn. rewrite Hf. rewrite lookup_insert_eq. cbn.
  repeat split; try reflexivity.
  - now rewrite insert_insert_eq, lookup_insert_eq.
  - now rewrite <- app_assoc.
Qed.

(** C2 as stated fails: the fixture yields a second value, and the
    registered finalizer returns it as an ordinary value; nothing is
    raised. *)
Lemma C2_counterexample :
  let w1 := snd (call_fixture_func (func (pytest_fixture_setup two_yields)) []
                   [("request", request_with_loop)] empty_world) in
  fst (call_fixture_func (func (pytest_fixture_setup two_yields)) []
         [("request", request_with_loop)] empty_world) = Ok (VObj 1)
  /\ finalizers w1 = [FixtureFinalizer (VLoop 7) 0]
  /\ fst (run_closure (FixtureFinalizer (VLoop 7) 0) w1) = Ok (VObj 2)
  /\ raised (fst (run_closure (FixtureFinalizer (VLoop 7) 0) w1)) = false.
Proof. repeat split. Qed.

(** C2, amended: the finalizer advances the generator once, on the loop
    it was registered with.  The end of the generator is swallowed and
    the finalizer returns [None]; an exception of the generator body is
    raised by the finalizer; a second yielded value is returned by the
    finalizer as its return value, no exception is raised for it. *)
Theorem C2_finalizer_outcomes (l g : nat) (script : agen) (w : World) :
  agens w !! g = Some script ->
  trace (snd (finalizer (VLoop l) g w))
  = trace w ++ [EvRunUntilComplete l; EvAnext g]
  /\ match script with
     | AEnd =>
         fst (finalizer (VLoop l) g w) = Ok VNone
     | AFail e =>
         raised (fst (finalizer (VLoop l) g w)) = true
         /\ (e <> StopAsyncIteration -> fst (finalizer (VLoop l) g w) = Raise e)
     | AYield v rest =>
         fst (finalizer (VLoop l) g w) = Ok v
         /\ agens (snd (finalizer (VLoop l) g w)) !! g = Some rest
     end.
Proof.
  intros Hg. unfold finalizer, try_except_StopAsyncIteration, run_until_complete,
    anext, bind, emit. cbn. rewrite Hg.
  destruct script as [|e|v rest]; cbn.
  - split; [now rewrite <- app_assoc|reflexivity].
  - destruct e; cbn; (split; [now rewrite <- app_assoc|]);
      (split; [reflexivity|]); try reflexivity; intros H; congruence.
  - split; [now rewrite <- app_assoc|]. split; [reflexivity|].
    apply lookup_insert_eq.
Qed.

Lemma C2_finalizer_outcomes_witness :
  fst (finalizer (VLoop 7) 0
         (set_agens {[ 0 := AEnd ]} empty_world)) = Ok VNone.
Proof.
  destruct (C2_finalizer_outcomes 7 0 AEnd (set_agens {[ 0 := AEnd ]} empty_world))
    as [_ H]; [reflexivity|exact H].
Defined.

End FixtureClaims.

(** ** The ephemeral server/client registry *)

Section RegistryFacts.
Import Registry.



Lemma contents_set_pylists_eq (xs : nat) (l : list nat) (w : World) :
  contents xs (set_pylists (<[xs := l]> (pylists w)) w) = l.
Proof. unfold contents. cbn. now rewrite lookup_insert_eq. Qed.




(** The second half of [go] of [test_client], once the first argument is
    known not to be invoked. *)
Lemma test_client_go_direct (loop : pyval) (xs : nat) (p : param)
    (server_kwargs : option (dict pyval)) (kwargs : dict pyval) (l : nat) (w : World) :
  is_Callable_not_app_or_server p = false ->
  test_client_go loop xs p [] server_kwargs kwargs l w =
  match p with
  | PApplication app =>
      (Ok (VObj (S (next_id w))),
       {| next_id := S (S (next_id w));
          trace := trace w ++
                   [EvTestServer (next_id w) app None (Some loop) (default [] server_kwargs);
                    EvTestClient (S (next_id w)) (next_id w) loop kwargs;
                    EvStartClient (S (next_id w))];
          captured := captured w;
          agens := agens w;
          pylists := <[xs := contents xs w ++ [S (next_id w)]]> (pylists w);
          finalizers := finalizers w |})
  | PServer server =>
      (Ok (VObj (next_id w)),
       {| next_id := S (next_id w);
          trace := trace w ++
                   [EvTestClient (next_id w) server loop kwargs;
                    EvStartClient (next_id w)];
          captured := captured w;
          agens := agens w;
          pylists := <[xs := contents xs w ++ [next_id w]]> (pylists w);
          finalizers := finalizers w |})
  | _ => (Raise (ValueError ("Unknown argument type: " +:+ type_repr_of p)), w)
  end.
Proof.
  intros Hp. destruct p as [app|server|r call|r]; try discriminate; cbn.
  - unfold contents. cbn. now rewrite <- !app_assoc.
  - unfold contents. cbn. now rewrite <- !app_assoc.
  - reflexivity.
Qed.

Lemma test_client_go_callable (loop : pyval) (xs : nat) (r : string)
    (call : pyval -> list pyval -> dict pyval -> M param) (args : list pyval)
    (server_kwargs : option (dict pyval)) (kwargs : dict pyval) (l : nat) (w : World) :
  test_client_go loop xs (PCallable r call) args server_kwargs kwargs l w =
  match call loop args kwargs w with
  | (Raise e, w1) => (Raise e, w1)
  | (Ok p', w1) =>
      if is_Callable_not_app_or_server p' then
        (Raise (ValueError ("Unknown argument type: " +:+ type_repr_of p')), w1)
      else test_client_go loop xs p' [] server_kwargs [] l w1
  end.
Proof.
  unfold test_client_go at 1. unfold bind.
  destruct (call loop args kwargs w) as [[p'|e] w1]; [|reflexivity].
  destruct p' as [app|server|r' call'|r']; reflexivity.
Qed.

Lemma test_server_go_tracks (loop : pyval) (xs : nat) (r : server_request) :
  FallibleClose.tracks (call_server_factory (test_server_go loop xs)) xs r.
Proof.
  destruct r as [[app port] kwargs]. intros l w. cbn.
  exists (next_id w). split; [reflexivity|]. split; [lia|].
  unfold contents. cbn. now rewrite lookup_insert_eq.
Qed.

Lemma raw_test_server_go_tracks (loop : pyval) (xs : nat) (r : server_request) :
  FallibleClose.tracks (call_server_factory (raw_test_server_go loop xs)) xs r.
Proof.
  destruct r as [[handler port] kwargs]. intros l w. cbn.
  exists (next_id w). split; [reflexivity|]. split; [lia|].
  unfold contents. cbn. now rewrite lookup_insert_eq.
Qed.

Lemma test_client_go_direct_tracks (loop : pyval) (xs : nat) (p : param)
    (server_kwargs : option (dict pyval)) (kwargs : dict pyval) (l : nat) (w : World) :
  is_Callable_not_app_or_server p = false ->
  match test_client_go loop xs p [] server_kwargs kwargs l w with
  | (Ok v, w') =>
      exists h, v = VObj h
                /\ next_id w <= h < next_id w'
                /\ contents xs w' = contents xs w ++ [h]
  | (Raise _, w') => next_id w <= next_id w' /\ contents xs w' = contents xs w
  end.
Proof.
  intros Hp. rewrite (test_client_go_direct _ _ _ _ _ _ _ Hp).
  destruct p as [app|server|r call|r]; try discriminate.
  - exists (S (next_id w)). split; [reflexivity|]. cbn [next_id]. split; [lia|].
    apply contents_set_pylists_eq.
  - exists (next_id w). split; [reflexivity|]. cbn [next_id]. split; [lia|].
    apply contents_set_pylists_eq.
  - split; [lia|reflexivity].
Qed.

Lemma test_client_go_tracks (loop : pyval) (xs : nat) (r : client_request) :
  FallibleClose.keeps_list xs (fst (fst (fst r))) ->
  FallibleClose.tracks (call_client_factory (test_client_go loop xs)) xs r.
Proof.
  destruct r as [[[p args] server_kwargs] kwargs]. cbn [fst]. intros Hk l w.
  unfold call_client_factory.
  destruct p as [app|server|r call|r].
  - destruct args as [|a args];
      [now apply test_client_go_direct_tracks|cbn; split; [lia|reflexivity]].
  - destruct args as [|a args];
      [now apply test_client_go_direct_tracks|cbn; split; [lia|reflexivity]].
  - rewrite test_client_go_callable. cbn in Hk.
    destruct (Hk loop args kwargs w) as [Hl Hn].
    destruct (call loop args kwargs w) as [[p'|e] w1]; cbn [snd] in *.
    + assert (Hc : contents xs w1 = contents xs w)
        by (unfold contents; now rewrite Hl).
      destruct (is_Callable_not_app_or_server p') eqn:Hp'; [now split|].
      pose proof (test_client_go_direct_tracks loop xs p' server_kwargs [] l w1 Hp')
        as Hd.
      destruct (test_client_go loop xs p' [] server_kwargs [] l w1) as [[v|e] w'].
      * destruct Hd as (h & -> & Hh & Hcs). exists h.
        split; [reflexivity|]. split; [lia|]. now rewrite Hcs, Hc.
      * destruct Hd as [Hn' Hcs]. split; [lia|]. now rewrite Hcs, Hc.
    + split; [exact Hn|]. unfold contents. now rewrite Hl.
  - destruct args as [|a args];
      [now apply test_client_go_direct_tracks|cbn; split; [lia|reflexivity]].
Qed.

(** A run of factory calls, seen from the registry list: the list gains
    the handles the calls returned, in that order, and these are new and
    pairwise distinct. *)
Lemma create_all_created {A} (go : A -> coroutine) (xs : nat) (reqs : list A) :
  Forall (FallibleClose.tracks go xs) reqs ->
  forall l w,
    contents xs (snd (create_all go l reqs w))
    = contents xs w ++ FallibleClose.created_by go l reqs w
    /\ next_id w <= next_id (snd (create_all go l reqs w))
    /\ Forall (fun h => next_id w <= h < next_id (snd (create_all go l reqs w)))
              (FallibleClose.created_by go l reqs w)
    /\ NoDup (FallibleClose.created_by go l reqs w).
Proof.
  induction 1 as [|req reqs Hreq _ IH]; intros l w.
  - cbn. rewrite app_nil_r. repeat split; auto using NoDup_nil_2.
  - cbn [create_all FallibleClose.created_by]. unfold bind.
    specialize (Hreq l w).
    destruct (go req l w) as [[v|e] w1]; cbn [fst snd] in *.
    + destruct Hreq as (h & -> & Hh & Hl1).
      destruct (IH l w1) as (Hl2 & Hn2 & Hb2 & Hd2).
      split; [now rewrite Hl2, Hl1, <- app_assoc|]. split; [lia|]. split.
      * constructor; [lia|].
        eapply Forall_impl; [exact Hb2|]. cbn. intros x Hx. lia.
      * apply NoDup_cons. split; [|exact Hd2].
        intros Hin. rewrite Forall_forall in Hb2. specialize (Hb2 h Hin). lia.
    + destruct Hreq as [Hn1 Hl1]. rewrite app_nil_r.
      repeat split; auto using NoDup_nil_2.
Qed.

(** With no raising [close()] among the entries, the [while] loop of
    [finalize] pops and closes every entry, last one first, and ends with
    the list empty; fuel beyond the number of entries is never used up. *)
Lemma finalize_loop_closes_all (close_outcome : nat -> option exn) (fuel xs : nat) :
  forall (tracked : list nat) (w : World),
    contents xs w = tracked ->
    length tracked < fuel ->
    Forall (fun h => close_outcome h = None) tracked ->
    exists w',
      FallibleClose.finalize_loop close_outcome fuel xs w = (Ok tt, w')
      /\ trace w' = trace w ++ map EvClose (rev tracked)
      /\ contents xs w' = []
      /\ next_id w' = next_id w.
Proof.
  induction fuel as [|fuel IH]; intros tracked w Hc Hlen Hok; [lia|].
  cbn [FallibleClose.finalize_loop]. unfold bind, list_nonempty. rewrite Hc.
  destruct tracked as [|a tracked'] using rev_ind.
  - cbn. exists w. repeat split; [now rewrite app_nil_r|exact Hc].
  - clear IHtracked'. rewrite length_app in *. cbn [length] in *.
    apply Forall_app in Hok as [Hok' Ha].
    assert (Ha' : close_outcome a = None) by (inversion Ha; assumption).
    replace (Nat.eqb (length tracked' + 1) 0) with false
      by (symmetry; apply Nat.eqb_neq; lia).
    cbn [negb]. unfold list_pop. rewrite Hc, rev_unit, rev_involutive.
    unfold FallibleClose.close, bind, emit. rewrite Ha'. unfold ret.
    cbv beta iota.
    match goal with
    | |- exists w', FallibleClose.finalize_loop _ fuel xs ?w1 = _ /\ _ =>
        destruct (IH tracked' w1) as (w' & Hf & Ht & Hcs & Hn)
    end.
    + apply contents_set_pylists_eq.
    + lia.
    + exact Hok'.
    + exists w'. split; [exact Hf|]. split; [|split; [exact Hcs|exact Hn]].
      rewrite Ht. cbn [trace set_pylists map]. now rewrite <- app_assoc.
Qed.

Lemma registry_teardown_closes_all (close_outcome : nat -> option exn)
    (l xs : nat) (w : World) :
  Forall (fun h => close_outcome h = None) (contents xs w) ->
  exists w',
    FallibleClose.registry_teardown close_outcome (VLoop l) xs w = (Ok tt, w')
    /\ trace w' = trace w ++ EvRunUntilComplete l :: map EvClose (rev (contents xs w))
    /\ contents xs w' = [].
Proof.
  intros Hok.
  unfold FallibleClose.registry_teardown, run_until_complete, bind,
    FallibleClose.finalize, emit.
  match goal with
  | |- context [FallibleClose.finalize_loop _ ?f xs ?w1] =>
      destruct (finalize_loop_closes_all close_outcome f xs (contents xs w) w1)
        as (w' & Hf & Ht & Hcs & _);
        [reflexivity|cbn; unfold contents; cbn; lia|exact Hok|]
  end.
  cbn in Hf. cbn. unfold contents in *. cbn in *. rewrite Hf.
  exists w'. repeat split; [|exact Hcs].
  rewrite Ht. now rewrite <- app_assoc.
Qed.

(** With every [close()] returning, the teardown is the one of
    [Registry]. *)
Lemma finalize_loop_returning_close (fuel xs : nat) (w : World) :
  FallibleClose.finalize_loop (fun _ => None) fuel xs w = finalize_loop fuel xs w.
Proof.
  revert w. induction fuel as [|fuel IH]; intros w; [reflexivity|].
  cbn [FallibleClose.finalize_loop finalize_loop]. unfold bind, list_nonempty.
  destruct (negb _); [|reflexivity].
  unfold list_pop. destruct (rev (contents xs w)); [reflexivity|].
  unfold FallibleClose.close, close, bind, emit, ret. apply IH.
Qed.

(** A registry fixture driven by the host around a scripted test. *)
Lemma registry_fixture_closes {A Y} (close_outcome : nat -> option exn)
    (fixture : generator Y) (mk : nat -> Y) (call : Y -> A -> coroutine)
    (l : nat) (reqs : list A) (ending : res unit) (w0 : World) :
  (forall w, fixture w =
             match new_list w with
             | (Raise e, w1) => GRaise e w1
             | (Ok xs, w1) =>
                 GYield (mk xs) w1
                   (finish (FallibleClose.registry_teardown close_outcome (VLoop l) xs))
                   (fun e w' => GRaise e w')
             end) ->
  Forall (FallibleClose.tracks (call (mk (next_id w0))) (next_id w0)) reqs ->
  Forall (fun h => close_outcome h = None)
    (FallibleClose.created_by (call (mk (next_id w0))) l reqs (snd (new_list w0))) ->
  fst (FallibleClose.fixture_run fixture call l reqs ending w0)
  = fst (FallibleClose.test_run (call (mk (next_id w0))) l reqs ending w0)
  /\ trace (snd (FallibleClose.fixture_run fixture call l reqs ending w0))
     = trace (snd (FallibleClose.test_run (call (mk (next_id w0))) l reqs ending w0))
       ++ EvRunUntilComplete l
          :: map EvClose
               (rev (FallibleClose.created_by (call (mk (next_id w0))) l reqs
                       (snd (new_list w0))))
  /\ contents (next_id w0)
       (snd (FallibleClose.fixture_run fixture call l reqs ending w0)) = []
  /\ NoDup (FallibleClose.created_by (call (mk (next_id w0))) l reqs
              (snd (new_list w0))).
Proof.
  intros Hfix Hgo Hok.
  unfold FallibleClose.fixture_run, FallibleClose.test_run, run_with_yield_fixture.
  rewrite Hfix.
  set (w1 := snd (new_list w0)) in *.
  change (new_list w0) with (Ok (next_id w0), w1).
  set (xs := next_id w0) in *. cbv iota beta.
  destruct (create_all_created (call (mk xs)) xs reqs Hgo l w1)
    as (Hl & Hn & Hb & Hd).
  assert (Hw2 : snd (scripted_test (call (mk xs)) l reqs ending w1)
                = snd (create_all (call (mk xs)) l reqs w1)).
  { unfold scripted_test, bind.
    destruct (create_all _ _ _ _) as [[u|e] w2]; [destruct ending|]; reflexivity. }
  destruct (scripted_test (call (mk xs)) l reqs ending w1) as [outcome w2].
  cbn [snd fst] in *. subst w2.
  set (w2 := snd (create_all (call (mk xs)) l reqs w1)) in *.
  assert (Hw1 : contents xs w1 = []) by apply contents_set_pylists_eq.
  rewrite Hw1 in Hl. cbn [app] in Hl.
  destruct (registry_teardown_closes_all close_outcome l xs w2)
    as (w3 & Htd & Ht3 & Hc3); [now rewrite Hl|].
  unfold finish. rewrite Htd. cbn [fst snd].
  repeat split; try assumption. now rewrite Ht3, Hl.
Qed.

(** C7 as stated fails: three servers are created through [test_server],
    the test returns, and the [close()] of the last one raises: the
    teardown stops there, the two servers created first are never closed
    and stay in the registry list. *)
Lemma C7_counterexample :
  FallibleClose.created_by
    (call_server_factory (test_server_go (VLoop 7) 0)) 7
    MoreSamples.three_servers (snd (new_list empty_world)) = [1; 2; 3]
  /\ fst (FallibleClose.fixture_run
            (FallibleClose.test_server MoreSamples.third_close_raises (VLoop 7))
            call_server_factory 7 MoreSamples.three_servers (Ok tt) empty_world)
     = Raise (Exception "connection lost")
  /\ closed (trace (snd (FallibleClose.fixture_run
                           (FallibleClose.test_server MoreSamples.third_close_raises
                              (VLoop 7))
                           call_server_factory 7 MoreSamples.three_servers (Ok tt)
                           empty_world))) = [3]
  /\ contents 0 (snd (FallibleClose.fixture_run
                        (FallibleClose.test_server MoreSamples.third_close_raises
                           (VLoop 7))
                        call_server_factory 7 MoreSamples.three_servers (Ok tt)
                        empty_world)) = [1; 2].
Proof. repeat split. Qed.

(** C7, amended: for each of the three factories, when no [close()] of an
    entry created raises, the teardown closes the servers or clients the
    test created one after the other in the exact reverse order of their
    creation, each once (the handles are pairwise distinct), as the last
    events of the run, and the registry list ends empty; this holds
    whether the test returns or raises, the host reporting the test's own
    outcome.  A callable handed to the client factory may do anything
    but reach the fixture's local list. *)
Theorem C7_registry_closed_lifo
    (close_outcome : nat -> option exn) (l : nat)
    (sreqs : list server_request) (creqs : list client_request)
    (ending : res unit) (w0 : World) :
  Forall (fun r => FallibleClose.keeps_list (next_id w0) (fst (fst (fst r)))) creqs ->
  Forall (fun h => close_outcome h = None)
    (FallibleClose.created_by
       (call_server_factory (test_server_go (VLoop l) (next_id w0)))
       l sreqs (snd (new_list w0))) ->
  Forall (fun h => close_outcome h = None)
    (FallibleClose.created_by
       (call_server_factory (raw_test_server_go (VLoop l) (next_id w0)))
       l sreqs (snd (new_list w0))) ->
  Forall (fun h => close_outcome h = None)
    (FallibleClose.created_by
       (call_client_factory (test_client_go (VLoop l) (next_id w0)))
       l creqs (snd (new_list w0))) ->
  (fst (FallibleClose.fixture_run (FallibleClose.test_server close_outcome (VLoop l))
          call_server_factory l sreqs ending w0)
   = fst (FallibleClose.test_run
            (call_server_factory (test_server_go (VLoop l) (next_id w0)))
            l sreqs ending w0)
   /\ trace (snd (FallibleClose.fixture_run
                    (FallibleClose.test_server close_outcome (VLoop l))
                    call_server_factory l sreqs ending w0))
      = trace (snd (FallibleClose.test_run
                      (call_server_factory (test_server_go (VLoop l) (next_id w0)))
                      l sreqs ending w0))
        ++ EvRunUntilComplete l
           :: map EvClose
                (rev (FallibleClose.created_by
                        (call_server_factory (test_server_go (VLoop l) (next_id w0)))
                        l sreqs (snd (new_list w0))))
   /\ contents (next_id w0)
        (snd (FallibleClose.fixture_run
                (FallibleClose.test_server close_outcome (VLoop l))
                call_server_factory l sreqs ending w0)) = []
   /\ NoDup (FallibleClose.created_by
               (call_server_factory (test_server_go (VLoop l) (next_id w0)))
               l sreqs (snd (new_list w0))))
  /\ (fst (FallibleClose.fixture_run
             (FallibleClose.raw_test_server close_outcome (VLoop l))
             call_server_factory l sreqs ending w0)
      = fst (FallibleClose.test_run
               (call_server_factory (raw_test_server_go (VLoop l) (next_id w0)))
               l sreqs ending w0)
      /\ trace (snd (FallibleClose.fixture_run
                       (FallibleClose.raw_test_server close_outcome (VLoop l))
                       call_server_factory l sreqs ending w0))
         = trace (snd (FallibleClose.test_run
                         (call_server_factory
                            (raw_test_server_go (VLoop l) (next_id w0)))
                         l sreqs ending w0))
           ++ EvRunUntilComplete l
              :: map EvClose
                   (rev (FallibleClose.created_by
                           (call_server_factory
                              (raw_test_server_go (VLoop l) (next_id w0)))
                           l sreqs (snd (new_list w0))))
      /\ contents (next_id w0)
           (snd (FallibleClose.fixture_run
                   (FallibleClose.raw_test_server close_outcome (VLoop l))
                   call_server_factory l sreqs ending w0)) = []
      /\ NoDup (FallibleClose.created_by
                  (call_server_factory (raw_test_server_go (VLoop l) (next_id w0)))
                  l sreqs (snd (new_list w0))))
  /\ (fst (FallibleClose.fixture_run
             (FallibleClose.test_client close_outcome (VLoop l))
             call_client_factory l creqs ending w0)
      = fst (FallibleClose.test_run
               (call_client_factory (test_client_go (VLoop l) (next_id w0)))
               l creqs ending w0)
      /\ trace (snd (FallibleClose.fixture_run
                       (FallibleClose.test_client close_outcome (VLoop l))
                       call_client_factory l creqs ending w0))
         = trace (snd (FallibleClose.test_run
                         (call_client_factory (test_client_go (VLoop l) (next_id w0)))
                         l creqs ending w0))
           ++ EvRunUntilComplete l
              :: map EvClose
                   (rev (FallibleClose.created_by
                           (call_client_factory
                              (test_client_go (VLoop l) (next_id w0)))
                           l creqs (snd (new_list w0))))
      /\ contents (next_id w0)
           (snd (FallibleClose.fixture_run
                   (FallibleClose.test_client close_outcome (VLoop l))
                   call_client_factory l creqs ending w0)) = []
      /\ NoDup (FallibleClose.created_by
                  (call_client_factory (test_client_go (VLoop l) (next_id w0)))
                  l creqs (snd (new_list w0)))).
Proof.
  intros Hk Hs Hr Hc. split; [|split].
  - apply (registry_fixture_closes close_outcome
             (FallibleClose.test_server close_outcome (VLoop l))
             (test_server_go (VLoop l)) call_server_factory);
      [reflexivity| |exact Hs].
    apply Forall_forall. intros r _. apply test_server_go_tracks.
  - apply (registry_fixture_closes close_outcome
             (FallibleClose.raw_test_server close_outcome (VLoop l))
             (raw_test_server_go (VLoop l)) call_server_factory);
      [reflexivity| |exact Hr].
    apply Forall_forall. intros r _. apply raw_test_server_go_tracks.
  - apply (registry_fixture_closes close_outcome
             (FallibleClose.test_client close_outcome (VLoop l))
             (test_client_go (VLoop l)) call_client_factory);
      [reflexivity| |exact Hc].
    eapply Forall_impl; [exact Hk|].
    intros r Hr'. now apply test_client_go_tracks.
Qed.

Example clients_with_builder_run :
  FallibleClose.created_by
    (call_client_factory (test_client_go (VLoop 7) 0)) 7
    MoreSamples.clients_with_builder (snd (new_list empty_world)) = [2; 4; 5]
  /\ FallibleClose.fixture_run
       (FallibleClose.test_client MoreSamples.closes_return (VLoop 7))
       call_client_factory 7 MoreSamples.clients_with_builder
       (Raise (TestFailure "boom")) empty_world
     = run_with_yield_fixture (test_client (VLoop 7))
         (fun go => scripted_test (call_client_factory go) 7
                      MoreSamples.clients_with_builder (Raise (TestFailure "boom")))
         empty_world.
Proof. split; reflexivity. Qed.

Lemma C7_registry_closed_lifo_witness :
  fst (FallibleClose.fixture_run
         (FallibleClose.test_client MoreSamples.closes_return (VLoop 7))
         call_client_factory 7 MoreSamples.clients_with_builder
         (Raise (TestFailure "boom")) empty_world)
  = Raise (TestFailure "boom")
  /\ closed (trace (snd (FallibleClose.fixture_run
                           (FallibleClose.test_client MoreSamples.closes_return
                              (VLoop 7))
                           call_client_factory 7 MoreSamples.clients_with_builder
                           (Raise (TestFailure "boom")) empty_world)))
     = [5; 4; 2]
  /\ contents 0 (snd (FallibleClose.fixture_run
                        (FallibleClose.test_client MoreSamples.closes_return
                           (VLoop 7))
                        call_client_factory 7 MoreSamples.clients_with_builder
                        (Raise (TestFailure "boom")) empty_world)) = [].
Proof.
  destruct (C7_registry_closed_lifo MoreSamples.closes_return 7
              MoreSamples.three_servers MoreSamples.clients_with_builder
              (Raise (TestFailure "boom")) empty_world)
    as (_ & _ & (Hr & Ht & Hc & _)).
  - repeat constructor; intros; cbn; lia.
  - vm_compute. repeat constructor.
  - vm_compute. repeat constructor.
  - vm_compute. repeat constructor.
  - split; [rewrite Hr; reflexivity|]. split; [rewrite Ht; reflexivity|exact Hc].
Defined.

(** C9 as stated fails: extra positional arguments next to an argument
    that is not invoked stop the factory at its assertion, before any
    dispatch: an integer does not get the unknown-argument-type error, an
    application does not get a client. *)
Lemma C9_counterexample :
  test_client_go (VLoop 7) 0 (POther "<class 'int'>") [VObj 1] None [] 7 empty_world
  = (Raise (AssertionError "args should be empty"), empty_world)
  /\ test_client_go (VLoop 7) 0 (PApplication 10) [VObj 1] None [] 7 empty_world
     = (Raise (AssertionError "args should be empty"), empty_world).
Proof. split; reflexivity. Qed.

(** C9, amended: a callable that is neither application nor server is
    invoked with the loop, the positional and the keyword arguments, and
    its result is dispatched with no keyword arguments left (a result that
    is again a mere callable is not invoked, it is an unknown type).  Any
    other argument next to extra positional arguments fails the assertion.
    Without them: an application gets a new server built for it and a
    client on that server, a server gets a client on itself, both started
    and appended to the registry; anything else raises the
    unknown-argument-type error and changes nothing. *)
Theorem C9_client_factory_dispatch
    (loop : pyval) (clients : nat) (p : param) (args : list pyval)
    (server_kwargs : option (dict pyval)) (kwargs : dict pyval)
    (l : nat) (w : World) :
  match p with
  | PCallable _ call =>
      test_client_go loop clients p args server_kwargs kwargs l w =
      match call loop args kwargs w with
      | (Raise e, w1) => (Raise e, w1)
      | (Ok p', w1) =>
          if is_Callable_not_app_or_server p' then
            (Raise (ValueError ("Unknown argument type: " +:+ type_repr_of p')), w1)
          else test_client_go loop clients p' [] server_kwargs [] l w1
      end
  | _ =>
      match args with
      | _ :: _ =>
          test_client_go loop clients p args server_kwargs kwargs l w
          = (Raise (AssertionError "args should be empty"), w)
      | [] =>
          let run := test_client_go loop clients p [] server_kwargs kwargs l w in
          match p with
          | PApplication app =>
              fst run = Ok (VObj (S (next_id w)))
              /\ trace (snd run)
                 = trace w ++
                   [EvTestServer (next_id w) app None (Some loop)
                      (default [] server_kwargs);
                    EvTestClient (S (next_id w)) (next_id w) loop kwargs;
                    EvStartClient (S (next_id w))]
              /\ contents clients (snd run) = contents clients w ++ [S (next_id w)]
          | PServer server =>
              fst run = Ok (VObj (next_id w))
              /\ trace (snd run)
                 = trace w ++
                   [EvTestClient (next_id w) server loop kwargs;
                    EvStartClient (next_id w)]
              /\ contents clients (snd run) = contents clients w ++ [next_id w]
          | _ =>
              run = (Raise (ValueError ("Unknown argument type: " +:+ type_repr_of p)), w)
          end
      end
  end.
Proof.
  destruct p as [app|server|r call|r].
  - destruct args as [|a args]; [|reflexivity]. cbv zeta.
    rewrite test_client_go_direct by reflexivity. cbn [fst snd trace].
    repeat split. apply contents_set_pylists_eq.
  - destruct args as [|a args]; [|reflexivity]. cbv zeta.
    rewrite test_client_go_direct by reflexivity. cbn [fst snd trace].
    repeat split. apply contents_set_pylists_eq.
  - unfold test_client_go at 1. unfold bind.
    destruct (call loop args kwargs w) as [[p'|e] w1]; [|reflexivity].
    destruct p' as [app|server|r' call'|r']; reflexivity.
  - destruct args as [|a args]; reflexivity.
Qed.

Example client_for_application :
  let run := test_client_go (VLoop 7) 0 (PApplication 10) [] None [] 7
               (snd (new_list empty_world)) in
  fst run = Ok (VObj 2)
  /\ trace (snd run)
     = [EvTestServer 1 10 None (Some (VLoop 7)) [];
        EvTestClient 2 1 (VLoop 7) []; EvStartClient 2]
  /\ pylists (snd run) !! 0 = Some [2].
Proof. repeat split. Qed.

End RegistryFacts.

(** * Further properties *)

(** ** Loop selection *)

Section LoopSelectionMore.
Import LoopSelect Observe.

Lemma dict_get_dict_set {V} (k k0 : string) (v : V) (d : dict V) :
  dict_get k (dict_set k0 v d) = if String.eqb k k0 then Some v else dict_get k d.
Proof.
  induction d as [|[k' v'] d IH]; simpl.
  - destruct (String.eqb k k0); reflexivity.
  - destruct (String.eqb k0 k') eqn:E0; simpl.
    + apply String.eqb_eq in E0. subst k'.
      destruct (String.eqb k k0); reflexivity.
    + destruct (String.eqb k k') eqn:E1.
      * apply String.eqb_eq in E1. subst k'.
        rewrite String.eqb_sym, E0. reflexivity.
      * exact IH.
Qed.

Lemma dict_get_None_keys {V} (k : string) (d : dict V) :
  dict_get k d = None <-> ~ In k (keys d).
Proof.
  induction d as [|[k' v'] d IH]; simpl; [tauto|].
  destruct (String.eqb k k') eqn:E.
  - apply String.eqb_eq in E. subst. split; [discriminate|]. intros H. exfalso. auto.
  - apply String.eqb_neq in E. rewrite IH. split.
    + intros H [H1|H1]; [congruence|auto].
    + intros H H1. apply H. now right.
Qed.

Lemma keys_dict_set_iff {V} (k k0 : string) (v : V) (d : dict V) :
  In k (keys (dict_set k0 v d)) <-> k = k0 \/ In k (keys d).
Proof.
  split; [apply keys_dict_set|].
  induction d as [|[k' v'] d IH]; simpl.
  - intros [->|[]]. now left.
  - destruct (String.eqb k0 k') eqn:E; simpl.
    + apply String.eqb_eq in E. subst k'. intros [->|H]; [now left|exact H].
    + intros [->|[->|H]]; [right; apply IH; now left|now left|right; apply IH; now right].
Qed.

Lemma keys_dict_set_NoDup {V} (k0 : string) (v : V) (d : dict V) :
  NoDup (keys d) -> NoDup (keys (dict_set k0 v d)).
Proof.
  induction d as [|[k' v'] d IH]; simpl; intros Hnd.
  - apply NoDup_cons. split; [apply not_elem_of_nil|exact Hnd].
  - apply NoDup_cons in Hnd as [Hk' Hd].
    destruct (String.eqb k0 k') eqn:E; simpl.
    + apply NoDup_cons. split; assumption.
    + apply NoDup_cons. split; [|apply IH, Hd].
      rewrite list_elem_of_In, keys_dict_set_iff. intros [->|H].
      * now rewrite String.eqb_refl in E.
      * apply Hk'. now apply list_elem_of_In.
Qed.

Lemma dict_set_Forall {V} (P : string * V -> Prop) (k0 : string) (v : V) (d : dict V) :
  P (k0, v) -> Forall P d -> Forall P (dict_set k0 v d).
Proof.
  intros Hp. induction 1 as [|[k' v'] d Hx Hd IH]; simpl.
  - repeat constructor. exact Hp.
  - destruct (String.eqb k0 k') eqn:E.
    + apply String.eqb_eq in E. subst k'. constructor; assumption.
    + constructor; assumption.
Qed.

(** What [select_step] does, by the two tests of the loop body. *)
Lemma select_step_cases avail facs name :
  match dict_get (PyStr.strip [" "; "?"]%char name) avail with
  | Some f =>
      select_step avail facs name
      = Ok (dict_set (PyStr.strip [" "; "?"]%char name) f facs)
  | None =>
      if PyStr.endswith "?" name
      then select_step avail facs name = Ok facs
      else raised (select_step avail facs name) = true
  end.
Proof.
  unfold select_step.
  destruct (dict_get _ avail); [reflexivity|].
  destruct (PyStr.endswith "?" name); reflexivity.
Qed.

Lemma select_raises_iff avail names : forall facs,
  raised (select avail facs names) = true <-> Exists (unknown_required avail) names.
Proof.
  induction names as [|n names IH]; intros facs; simpl.
  - split; [discriminate|]. intros H. inversion H.
  - pose proof (select_step_cases avail facs n) as Hc.
    unfold unknown_required at 1. rewrite Exists_cons.
    destruct (dict_get (PyStr.strip [" "; "?"]%char n) avail) as [f|] eqn:G.
    + rewrite Hc, IH. split; [now right|]. intros [[_ H]|H]; [discriminate|exact H].
    + destruct (PyStr.endswith "?" n) eqn:E.
      * rewrite Hc, IH. split; [now right|]. intros [[H _]|H]; [discriminate|exact H].
      * destruct (select_step avail facs n) as [f1|e]; [discriminate|].
        simpl. split; [intros _; now left|reflexivity].
Qed.

Lemma In_existsb_eqb (k : string) (l : list string) :
  existsb (String.eqb k) l = true <-> In k l.
Proof.
  rewrite existsb_exists. split.
  - intros (x & Hin & Heq). apply String.eqb_eq in Heq. now subst.
  - intros Hin. exists k. split; [exact Hin|apply String.eqb_refl].
Qed.

(** X1: test generation raises exactly when the test uses [loop_factory]
    and some comma-separated piece of the loop option ([all] standing for
    [pyloop,uvloop?,tokio?]) lacks the [?] marker and, stripped, is not an
    available loop; pieces before or after it do not matter. *)
Theorem generate_raises_iff (imp : imports) (m : metafunc) :
  raised (pytest_generate_tests imp m) = true
  <-> In "loop_factory" (fixturenames m)
      /\ Exists (unknown_required (avail_factories imp))
           (PyStr.split ","
              (if String.eqb (option_loop m) "all"
               then "pyloop,uvloop?,tokio?" else option_loop m)).
Proof.
  unfold pytest_generate_tests.
  rewrite <- In_existsb_eqb, <- (select_raises_iff _ _ []).
  destruct (existsb (String.eqb "loop_factory") (fixturenames m)); cbn [negb].
  - destruct (select _ _ _); simpl.
    + split; [discriminate|]. intros [_ H]. exact H.
    + split; [intros _; split; reflexivity|reflexivity].
  - simpl. split; [discriminate|]. intros [H _]. discriminate.
Qed.

(** X2: the hook returns without parametrizing exactly when the test does
    not use [loop_factory]; the loop option is then not even looked at. *)
Theorem generate_skips_iff (imp : imports) (m : metafunc) :
  pytest_generate_tests imp m = Ok None <-> ~ In "loop_factory" (fixturenames m).
Proof.
  unfold pytest_generate_tests. rewrite <- In_existsb_eqb.
  destruct (existsb (String.eqb "loop_factory") (fixturenames m)); cbn [negb].
  - destruct (select _ _ _); split; try discriminate; intros H; exfalso; now apply H.
  - split; [discriminate|reflexivity].
Qed.

Lemma select_invariant avail names : forall facs facs',
  select avail facs names = Ok facs' ->
  NoDup (keys facs) ->
  Forall (fun kv => dict_get (fst kv) avail = Some (snd kv)) facs ->
  NoDup (keys facs')
  /\ Forall (fun kv => dict_get (fst kv) avail = Some (snd kv)) facs'.
Proof.
  induction names as [|n names IH]; simpl; intros facs facs' H Hnd Hav.
  - injection H as <-. now split.
  - pose proof (select_step_cases avail facs n) as Hc.
    destruct (dict_get (PyStr.strip [" "; "?"]%char n) avail) as [f|] eqn:G.
    + rewrite Hc in H. apply (IH _ _ H).
      * now apply keys_dict_set_NoDup.
      * now apply dict_set_Forall.
    + destruct (PyStr.endswith "?" n).
      * rewrite Hc in H. now apply (IH _ _ H).
      * destruct (select_step avail facs n); discriminate.
Qed.

(** X3: a parametrization the hook makes is well formed: it is for the
    argument [loop_factory], no id occurs twice, and the values are, in
    the same order, the factories [avail_factories] holds under the ids. *)
Theorem parametrize_well_formed (imp : imports) (m : metafunc) (p : parametrize) :
  pytest_generate_tests imp m = Ok (Some p) ->
  argname p = "loop_factory"
  /\ NoDup (ids p)
  /\ Forall2 (fun k f => dict_get k (avail_factories imp) = Some f)
       (ids p) (argvalues p).
Proof.
  unfold pytest_generate_tests. destruct (negb _); [discriminate|].
  destruct (select _ _ _) as [facs|e] eqn:E; [|discriminate].
  intros H. injection H as <-. cbn [argname ids argvalues].
  destruct (select_invariant _ _ _ _ E) as [Hnd Hav];
    [apply NoDup_nil_2|constructor|].
  split; [reflexivity|]. split; [exact Hnd|].
  clear -Hav. induction Hav as [|[k v] d Hx Hd IH]; simpl; constructor; assumption.
Qed.

Lemma parametrize_well_formed_witness :
  NoDup ["uvloop"; "pyloop"]
  /\ Forall2 (fun k f => dict_get k (avail_factories {| uvloop := true; tokio := false |})
                         = Some f)
       ["uvloop"; "pyloop"] [uvloop_new_event_loop; asyncio_new_event_loop].
Proof.
  destruct (parametrize_well_formed {| uvloop := true; tokio := false |}
              (uses_loop_factory "uvloop,pyloop,uvloop")
              {| argname := "loop_factory";
                 argvalues := [uvloop_new_event_loop; asyncio_new_event_loop];
                 ids := ["uvloop"; "pyloop"] |} eq_refl) as (_ & Hnd & Hf).
  split; [exact Hnd|exact Hf].
Defined.

Lemma select_keys_iff avail names : forall facs facs',
  select avail facs names = Ok facs' ->
  forall k, In k (keys facs') <->
            In k (keys facs)
            \/ (dict_get k avail <> None
                /\ exists n, In n names /\ PyStr.strip [" "; "?"]%char n = k).
Proof.
  induction names as [|n names IH]; simpl; intros facs facs' H k.
  - injection H as <-. split; [now left|]. intros [H|(_ & n & [] & _)]. exact H.
  - pose proof (select_step_cases avail facs n) as Hc.
    destruct (dict_get (PyStr.strip [" "; "?"]%char n) avail) as [f|] eqn:G.
    + rewrite Hc in H. rewrite (IH _ _ H k), keys_dict_set_iff. split.
      * intros [[->|Hin]|(Hav & n' & Hin & Hs)].
        -- right. split; [now rewrite G|]. exists n. split; [now left|reflexivity].
        -- now left.
        -- right. split; [exact Hav|]. exists n'. split; [now right|exact Hs].
      * intros [Hin|(Hav & n' & [->|Hin] & Hs)].
        -- left. now right.
        -- left. left. now symmetry.
        -- right. split; [exact Hav|]. exists n'. now split.
    + assert (Hsel : select_step avail facs n = Ok facs).
      { destruct (PyStr.endswith "?" n); [exact Hc|].
        destruct (select_step avail facs n); discriminate. }
      rewrite Hsel in H. rewrite (IH _ _ H k). split.
      * intros [Hin|(Hav & n' & Hin & Hs)]; [now left|].
        right. split; [exact Hav|]. exists n'. split; [now right|exact Hs].
      * intros [Hin|(Hav & n' & [->|Hin] & Hs)]; [now left| |].
        -- subst k. contradiction.
        -- right. split; [exact Hav|]. exists n'. now split.
Qed.

(** X4: when the hook parametrizes, the ids are exactly the available
    loop names that some piece of the option names once spaces and [?]
    are stripped from its ends: every requested available loop is
    parametrized, and nothing else is. *)
Theorem parametrize_ids_exact (imp : imports) (m : metafunc) (p : parametrize) (k : string) :
  pytest_generate_tests imp m = Ok (Some p) ->
  In k (ids p)
  <-> dict_get k (avail_factories imp) <> None
      /\ exists n,
           In n (PyStr.split ","
                   (if String.eqb (option_loop m) "all"
                    then "pyloop,uvloop?,tokio?" else option_loop m))
           /\ PyStr.strip [" "; "?"]%char n = k.
Proof.
  unfold pytest_generate_tests. destruct (negb _); [discriminate|].
  destruct (select _ _ _) as [facs|e] eqn:E; [|discriminate].
  intros H. injection H as <-. cbn [ids].
  rewrite (select_keys_iff _ _ _ _ E k). simpl. tauto.
Qed.

Lemma parametrize_ids_exact_witness :
  In "pyloop" ["pyloop"]
  <-> dict_get "pyloop" (avail_factories {| uvloop := false; tokio := false |}) <> None
      /\ exists n, In n (PyStr.split "," " pyloop ,uvloop?")
                   /\ PyStr.strip [" "; "?"]%char n = "pyloop".
Proof.
  exact (parametrize_ids_exact {| uvloop := false; tokio := false |}
           (uses_loop_factory " pyloop ,uvloop?")
           {| argname := "loop_factory";
              argvalues := [asyncio_new_event_loop];
              ids := ["pyloop"] |} "pyloop" eq_refl).
Defined.

(** X5: with the options as [pytest_addoption] declares them and nothing
    given on the command line, [--loop] is [pyloop], [--fast] and
    [--enable-loop-debug] are off, and a test using [loop_factory] is
    parametrized with the asyncio loop alone, whatever else is installed. *)
Theorem default_options_select_pyloop (imp : imports) (fx : list string) :
  In "loop_factory" fx ->
  Options.fast (Options.pytest_addoption []) [] = Some (Options.OBool false)
  /\ Options.loop_debug (Options.pytest_addoption []) [] = Some (Options.OBool false)
  /\ exists loops,
       Options.getoption (Options.pytest_addoption []) [] "--loop"
       = Some (Options.OStr loops)
       /\ pytest_generate_tests imp {| fixturenames := fx; option_loop := loops |}
          = Ok (Some {| argname := "loop_factory";
                        argvalues := [asyncio_new_event_loop];
                        ids := ["pyloop"] |}).
Proof.
  intros Hfx. split; [reflexivity|]. split; [reflexivity|].
  exists "pyloop". split; [reflexivity|].
  unfold pytest_generate_tests. cbn [fixturenames option_loop].
  apply In_existsb_eqb in Hfx. rewrite Hfx.
  destruct imp as [[] []]; reflexivity.
Qed.

Lemma default_options_select_pyloop_witness :
  exists loops,
    Options.getoption (Options.pytest_addoption []) [] "--loop"
    = Some (Options.OStr loops)
    /\ pytest_generate_tests {| uvloop := true; tokio := true |}
         (uses_loop_factory loops)
       = Ok (Some {| argname := "loop_factory";
                     argvalues := [asyncio_new_event_loop];
                     ids := ["pyloop"] |}).
Proof.
  destruct (default_options_select_pyloop {| uvloop := true; tokio := true |}
              ["loop_factory"]) as (_ & _ & H); [now left|exact H].
Defined.

End LoopSelectionMore.

(** ** The test invocation adapter *)

Section InvocationMore.
Import Harness.

(** Every coroutine test gets past [__enter__] of the passthrough
    context, with one of the two yielded loops. *)
Lemma pytest_pyfunc_call_cases (item : pyfuncitem) (w0 : World) :
  is_coroutinefunction item = true ->
  exists lp w2 r w3,
    enter (_passthrough_loop_context (existing_loop item) (opt_fast item))
          (set_captured [] w0) = Some (lp, w2)
    /\ run_test_body item lp w2 = (r, w3)
    /\ (lp, w2) = (if truthy (existing_loop item)
                   then (existing_loop item, set_captured [] w0)
                   else (VLoop (next_id w0),
                         snd (setup_test_loop (set_captured [] w0)))).
Proof.
  intros _. rewrite enter_passthrough.
  destruct (if truthy (existing_loop item) then _ else _) as [lp w2] eqn:E.
  destruct (run_test_body item lp w2) as [r w3] eqn:B.
  exists lp, w2, r, w3. repeat split; try assumption.
Qed.

(** X6: whatever the test does and however the hook ends, the warnings
    log that was active before the call is the active one after it: the
    recording of the hook does not leak into the host's own log. *)
Theorem warnings_log_restored (item : pyfuncitem) (w0 : World) :
  captured (snd (pytest_pyfunc_call item w0)) = captured w0.
Proof.
  destruct (is_coroutinefunction item) eqn:Hco.
  - destruct (pytest_pyfunc_call_cases item w0 Hco)
      as (lp & w2 & r & w3 & Hent & Hbody & _).
    rewrite (pytest_pyfunc_call_block item w0 lp w2 w3 r Hco Hent Hbody).
    destruct r as [u|e]; [|reflexivity]. cbn zeta.
    destruct (runtime_warning_lines _); reflexivity.
  - unfold pytest_pyfunc_call. now rewrite Hco.
Qed.

(** X7: the hook reports success exactly when the block returned and the
    log of the run holds no [RuntimeWarning]; warnings of any other
    category do not fail the test. *)
Theorem passes_iff_no_runtime_warning
    (item : pyfuncitem) (w0 : World) (lp : pyval) (w2 w3 : World) (r : res unit) :
  is_coroutinefunction item = true ->
  enter (_passthrough_loop_context (existing_loop item) (opt_fast item))
        (set_captured [] w0) = Some (lp, w2) ->
  run_test_body item lp w2 = (r, w3) ->
  fst (pytest_pyfunc_call item w0) = Ok (Some true)
  <-> r = Ok tt /\ List.filter is_RuntimeWarning (captured w3) = [].
Proof.
  intros Hco Hent Hbody.
  rewrite (pytest_pyfunc_call_block item w0 lp w2 w3 r Hco Hent Hbody).
  destruct r as [[]|e]; [|split; [discriminate|intros [H _]; discriminate]].
  cbn zeta.
  assert (captured (if truthy (existing_loop item) then w3
                    else snd (teardown_test_loop (next_id w0) (opt_fast item) w3))
          = captured w3) as -> by (destruct (truthy _); reflexivity).
  unfold runtime_warning_lines.
  destruct (List.filter is_RuntimeWarning (captured w3)); simpl.
  - split; [now split|reflexivity].
  - split; [discriminate|intros [_ H]; discriminate].
Qed.

Lemma passes_iff_no_runtime_warning_witness :
  captured (snd (run_test_body MoreSamples.deprecated_item (VLoop 7)
                   (set_captured [] empty_world))) = [Samples.deprecated]
  /\ fst (pytest_pyfunc_call MoreSamples.deprecated_item empty_world) = Ok (Some true).
Proof.
  split; [reflexivity|].
  apply (passes_iff_no_runtime_warning MoreSamples.deprecated_item empty_world
           (VLoop 7) (set_captured [] empty_world)
           (snd (run_test_body MoreSamples.deprecated_item (VLoop 7)
                   (set_captured [] empty_world))) (Ok tt));
    try reflexivity. split; reflexivity.
Defined.

(** X8: with a [loop] fixture value supplied, the hook adds nothing of
    its own around the block: the state it leaves is the state the block
    left, with the former warnings log put back; no loop is created and
    none is torn down, on success and on failure alike. *)
Theorem supplied_loop_untouched
    (item : pyfuncitem) (w0 w3 : World) (r : res unit) :
  is_coroutinefunction item = true ->
  truthy (existing_loop item) = true ->
  run_test_body item (existing_loop item) (set_captured [] w0) = (r, w3) ->
  snd (pytest_pyfunc_call item w0) = set_captured (captured w0) w3.
Proof.
  intros Hco Ht Hbody.
  rewrite (pytest_pyfunc_call_block item w0 (existing_loop item)
             (set_captured [] w0) w3 r Hco);
    [|now rewrite enter_passthrough, Ht|exact Hbody].
  destruct r as [u|e]; [|reflexivity]. cbn zeta. rewrite Ht.
  destruct (runtime_warning_lines _); reflexivity.
Qed.

Lemma supplied_loop_untouched_witness :
  trace (snd (pytest_pyfunc_call Samples.leaky_failing_item empty_world))
  = [EvRunUntilComplete 7]
  /\ next_id (snd (pytest_pyfunc_call Samples.leaky_failing_item empty_world)) = 0.
Proof.
  rewrite (supplied_loop_untouched Samples.leaky_failing_item empty_world
             (snd (run_test_body Samples.leaky_failing_item (VLoop 7)
                     (set_captured [] empty_world)))
             (Raise (TestFailure "assert 1 == 2")));
    [split|..]; reflexivity.
Defined.

Lemma build_testargs_ok (funcargs : dict pyval) (names : list string) :
  forall (acc : dict pyval) (w : World),
    Forall (fun a => dict_get a funcargs <> None) names ->
    exists kw,
      build_testargs funcargs names acc w = (Ok kw, w)
      /\ forall k, dict_get k kw =
                   if existsb (String.eqb k) names then dict_get k funcargs
                   else dict_get k acc.
Proof.
  induction names as [|a names IH]; intros acc w Hall.
  - exists acc. split; reflexivity.
  - apply Forall_cons in Hall as [Ha Hall]. cbn [build_testargs].
    destruct (dict_get a funcargs) as [v|] eqn:G; [|congruence].
    destruct (IH (dict_set a v acc) w Hall) as (kw & Hb & Hk).
    exists kw. split; [exact Hb|]. intros k. rewrite Hk. cbn [existsb].
    rewrite dict_get_dict_set.
    destruct (String.eqb k a) eqn:E; cbn [orb].
    + apply String.eqb_eq in E. subst k.
      destruct (existsb _ names); [reflexivity|now rewrite G].
    + reflexivity.
Qed.

Lemma build_testargs_missing (funcargs : dict pyval) (pre : list string)
    (a : string) (post : list string) :
  forall (acc : dict pyval) (w : World),
    Forall (fun a => dict_get a funcargs <> None) pre ->
    dict_get a funcargs = None ->
    build_testargs funcargs (pre ++ a :: post) acc w = (Raise (KeyError a), w).
Proof.
  induction pre as [|b pre IH]; intros acc w Hall Ha.
  - cbn. now rewrite Ha.
  - apply Forall_cons in Hall as [Hb Hall]. cbn.
    destruct (dict_get b funcargs) as [v|]; [|congruence].
    now apply IH.
Qed.

(** X9: the keyword arguments the test function is called with are the
    fixture values of exactly the names it declares: a declared name has
    the value the host resolved, any other resolved value (the [loop]
    fixture of a test that does not declare it, for one) is not passed. *)
Theorem testargs_are_declared_args (item : pyfuncitem) (lp : pyval) (w : World) :
  Forall (fun a => dict_get a (funcargs item) <> None) (argnames item) ->
  exists kw,
    (forall k, In k (argnames item) -> dict_get k kw = dict_get k (funcargs item))
    /\ (forall k, ~ In k (argnames item) -> dict_get k kw = None)
    /\ run_test_body item lp w
       = match run_until_complete lp (obj item kw) w with
         | (Ok _, w') => (Ok tt, w')
         | (Raise e, w') => (Raise e, w')
         end.
Proof.
  intros Hall.
  destruct (build_testargs_ok (funcargs item) (argnames item) [] w Hall)
    as (kw & Hb & Hk).
  exists kw. split; [|split].
  - intros k Hin. rewrite Hk. apply In_existsb_eqb in Hin. now rewrite Hin.
  - intros k Hin. rewrite Hk.
    destruct (existsb _ _) eqn:E; [|reflexivity].
    apply In_existsb_eqb in E. contradiction.
  - unfold run_test_body, bind. rewrite Hb.
    destruct (run_until_complete lp (obj item kw) w) as [[v|e] w']; reflexivity.
Qed.

Lemma testargs_are_declared_args_witness :
  exists kw,
    dict_get "x" kw = Some (VObj 3)
    /\ dict_get "loop" kw = None
    /\ run_test_body Samples.leaky_item (VLoop 7) empty_world
       = match run_until_complete (VLoop 7) (obj Samples.leaky_item kw) empty_world with
         | (Ok _, w') => (Ok tt, w')
         | (Raise e, w') => (Raise e, w')
         end.
Proof.
  destruct (testargs_are_declared_args Samples.leaky_item (VLoop 7) empty_world)
    as (kw & Hin & Hout & Hrun).
  - repeat constructor; discriminate.
  - exists kw. split; [|split; [|exact Hrun]].
    + rewrite Hin; [reflexivity|now left].
    + apply Hout. intros [H|[]]. discriminate.
Defined.

(** X10: when the function declares a name the host resolved no value
    for, the hook raises [KeyError] for the first such name and the test
    function is never called: nothing runs on the loop, the only event is
    the creation of a loop when none was supplied. *)
Theorem unresolved_argument_raises_KeyError
    (item : pyfuncitem) (w0 : World) (pre : list string) (a : string)
    (post : list string) :
  is_coroutinefunction item = true ->
  argnames item = pre ++ a :: post ->
  Forall (fun a => dict_get a (funcargs item) <> None) pre ->
  dict_get a (funcargs item) = None ->
  fst (pytest_pyfunc_call item w0) = Raise (KeyError a)
  /\ trace (snd (pytest_pyfunc_call item w0))
     = trace w0 ++ (if truthy (existing_loop item) then []
                    else [EvSetupLoop (next_id w0)]).
Proof.
  intros Hco Hnames Hpre Ha.
  destruct (pytest_pyfunc_call_cases item w0 Hco)
    as (lp & w2 & r & w3 & Hent & Hbody & Hlp).
  rewrite (pytest_pyfunc_call_block item w0 lp w2 w3 r Hco Hent Hbody).
  unfold run_test_body, bind in Hbody.
  rewrite Hnames, (build_testargs_missing _ _ _ _ _ _ Hpre Ha) in Hbody.
  injection Hbody as <- <-. split; [reflexivity|].
  destruct (truthy (existing_loop item)); injection Hlp as _ ->;
    cbn; [now rewrite app_nil_r|reflexivity].
Qed.

Lemma unresolved_argument_raises_KeyError_witness :
  fst (pytest_pyfunc_call MoreSamples.unresolved_item empty_world)
  = Raise (KeyError "y")
  /\ trace (snd (pytest_pyfunc_call MoreSamples.unresolved_item empty_world)) = [].
Proof.
  apply (unresolved_argument_raises_KeyError MoreSamples.unresolved_item
           empty_world ["x"] "y" ["z"]); try reflexivity.
  repeat constructor. discriminate.
Defined.

(** X11: the hook declines ([None], state untouched) exactly the test
    functions that are not coroutine functions; for a coroutine function
    it answers [True] or raises, it never declines. *)
Theorem declines_only_plain_functions (item : pyfuncitem) (w0 : World) :
  if is_coroutinefunction item
  then fst (pytest_pyfunc_call item w0) <> Ok None
  else pytest_pyfunc_call item w0 = (Ok None, w0).
Proof.
  destruct (is_coroutinefunction item) eqn:Hco.
  - destruct (pytest_pyfunc_call_cases item w0 Hco)
      as (lp & w2 & r & w3 & Hent & Hbody & _).
    rewrite (pytest_pyfunc_call_block item w0 lp w2 w3 r Hco Hent Hbody).
    destruct r as [u|e]; [|discriminate]. cbn zeta.
    destruct (runtime_warning_lines _); discriminate.
  - unfold pytest_pyfunc_call. now rewrite Hco.
Qed.

End InvocationMore.

(** ** The fixture lifecycle adapter *)

Section FixturesMore.
Import Fixtures.

Lemma dict_get_dict_del {V} (k k0 : string) (d : dict V) :
  dict_get k (dict_del k0 d) = if String.eqb k k0 then None else dict_get k d.
Proof.
  induction d as [|[k' v'] d IH]; simpl.
  - now destruct (String.eqb k k0).
  - destruct (String.eqb k0 k') eqn:E0; simpl.
    + apply String.eqb_eq in E0. subst k'. rewrite IH.
      now destruct (String.eqb k k0).
    + rewrite IH. destruct (String.eqb k k') eqn:E1; [|reflexivity].
      apply String.eqb_eq in E1. subst k'.
      now rewrite String.eqb_sym, E0.
Qed.

(** X12: wrapping is done once: applying the hook to a descriptor it has
    already handled changes nothing, so a fixture set up for test after
    test keeps one wrapper and one [request] argument; the declared names
    are kept in front, [request] being added only when it was absent. *)
Theorem pytest_fixture_setup_idempotent (fd : fixturedef) :
  pytest_fixture_setup (pytest_fixture_setup fd) = pytest_fixture_setup fd
  /\ exists extra,
       argnames (pytest_fixture_setup fd) = argnames fd ++ extra
       /\ (extra = []
           \/ (extra = ["request"] /\ name_in "request" (argnames fd) = false)).
Proof.
  unfold pytest_fixture_setup.
  destruct fd as [[f|a|a s] names]; cbn [func argnames].
  - split; [reflexivity|]. exists []. rewrite app_nil_r. auto.
  - destruct (name_in "request" names) eqn:E; cbn [negb func argnames].
    + split; [reflexivity|]. exists []. rewrite app_nil_r. auto.
    + split; [reflexivity|]. exists ["request"]. auto.
  - split; [reflexivity|]. exists []. rewrite app_nil_r. auto.
Qed.

(** X13: a coroutine fixture is run on the loop of the request, and its
    result or exception is the fixture's.  The function is called with the
    keyword arguments the host passed, minus the [request] entry when the
    function did not declare it. *)
Theorem coroutine_fixture_runs_on_request_loop
    (fd : fixturedef) (f : list pyval -> dict pyval -> coroutine)
    (args : list pyval) (kwargs : dict pyval)
    (names : list string) (values : dict pyval) (l : nat) (w : World) :
  func fd = Async (Coroutine f) ->
  dict_get "request" kwargs = Some (VRequest names values) ->
  In "loop" names ->
  dict_get "loop" values = Some (VLoop l) ->
  exists kwargs',
    call_fixture_func (func (pytest_fixture_setup fd)) args kwargs w
    = f args kwargs' l (snd (emit (EvRunUntilComplete l) w))
    /\ (forall k, k <> "request" -> dict_get k kwargs' = dict_get k kwargs)
    /\ dict_get "request" kwargs'
       = if name_in "request" (argnames fd)
         then Some (VRequest names values) else None.
Proof.
  intros Hf Hreq Hin Hl.
  destruct (pytest_fixture_setup_async fd _ Hf) as [-> _].
  unfold call_fixture_func, wrapper. rewrite Hreq.
  apply name_in_In in Hin. rewrite Hin. cbn [negb].
  unfold getfixturevalue. rewrite Hl.
  destruct (name_in "request" (argnames fd)); cbn [negb].
  - exists kwargs. split; [reflexivity|]. split; [reflexivity|exact Hreq].
  - exists (dict_del "request" kwargs). split; [reflexivity|]. split.
    + intros k Hk. rewrite dict_get_dict_del.
      apply String.eqb_neq in Hk. now rewrite Hk.
    + now rewrite dict_get_dict_del.
Qed.

Lemma coroutine_fixture_runs_on_request_loop_witness :
  call_fixture_func (func (pytest_fixture_setup MoreSamples.echo_fixture)) []
    [("x", VObj 4); ("request", Samples.request_with_loop)] empty_world
  = (Ok (VObj 4), snd (emit (EvRunUntilComplete 7) empty_world)).
Proof.
  destruct (coroutine_fixture_runs_on_request_loop MoreSamples.echo_fixture _ []
              [("x", VObj 4); ("request", Samples.request_with_loop)]
              ["loop"; "x"] [("loop", VLoop 7)] 7 empty_world
              eq_refl eq_refl (or_introl eq_refl) eq_refl)
    as (kw & Hcall & Hk & _).
  rewrite Hcall. cbn beta. rewrite (Hk "x"); [reflexivity|discriminate].
Defined.

(** X14: the finalizer of an async generator fixture is registered before
    the generator's first step.  When that step does not reach a [yield]
    (the body returns or raises at once) the fixture call raises, the
    finalizer is registered all the same, and running it afterwards is
    harmless: it finds the generator finished and returns [None]. *)
Theorem finalizer_registered_before_first_step
    (f : list pyval -> dict pyval -> agen) (strip : bool)
    (args : list pyval) (kwargs : dict pyval)
    (names : list string) (values : dict pyval) (l : nat) (w : World) :
  dict_get "request" kwargs = Some (VRequest names values) ->
  In "loop" names ->
  dict_get "loop" values = Some (VLoop l) ->
  (forall v rest,
     f args (if strip then dict_del "request" kwargs else kwargs) <> AYield v rest) ->
  raised (fst (wrapper (AsyncGen f) strip args kwargs w)) = true
  /\ finalizers (snd (wrapper (AsyncGen f) strip args kwargs w))
     = finalizers w ++ [FixtureFinalizer (VLoop l) (next_id w)]
  /\ fst (run_closure (FixtureFinalizer (VLoop l) (next_id w))
            (snd (wrapper (AsyncGen f) strip args kwargs w))) = Ok VNone.
Proof.
  intros Hreq Hin Hl Hny. unfold wrapper. rewrite Hreq.
  apply name_in_In in Hin. rewrite Hin. cbn [negb].
  unfold getfixturevalue. rewrite Hl.
  set (kw := if strip then dict_del "request" kwargs else kwargs) in *.
  destruct (f args kw) as [|e|v rest] eqn:Hf; [| |exfalso; now apply (Hny v rest)].
  - cbn. rewrite lookup_insert_eq. cbn.
    unfold finalizer, try_except_StopAsyncIteration. cbn.
    rewrite lookup_insert_eq. repeat split.
  - cbn. rewrite lookup_insert_eq. cbn.
    unfold finalizer, try_except_StopAsyncIteration.
    destruct e; cbn; rewrite lookup_insert_eq; repeat split.
Qed.

Lemma finalizer_registered_before_first_step_witness :
  let run := call_fixture_func (func (pytest_fixture_setup MoreSamples.broken_setup))
               [] [("request", Samples.request_with_loop)] empty_world in
  fst run = Raise (TestFailure "no database")
  /\ finalizers (snd run) = [FixtureFinalizer (VLoop 7) 0]
  /\ fst (run_closure (FixtureFinalizer (VLoop 7) 0) (snd run)) = Ok VNone.
Proof.
  destruct (finalizer_registered_before_first_step
              (fun _ _ => AFail (TestFailure "no database")) false []
              [("request", Samples.request_with_loop)]
              ["loop"; "x"] [("loop", VLoop 7)] 7 empty_world
              eq_refl (or_introl eq_refl) eq_refl)
    as (_ & Hfin & Hrun); [discriminate|].
  split; [reflexivity|]. split; [exact Hfin|exact Hrun].
Defined.

(** X15: setup and teardown of an async generator fixture compose: the
    fixture call returns the first yielded value, and the finalizer it
    registered, run afterwards, takes the generator from there: it
    returns [None] when the body ends, raises what the body raises, and
    returns a further yielded value; in all, the generator is advanced
    twice, both times on the loop of the request. *)
Theorem async_gen_fixture_two_phases
    (f : list pyval -> dict pyval -> agen) (strip : bool)
    (args : list pyval) (kwargs : dict pyval)
    (names : list string) (values : dict pyval) (l : nat)
    (v : pyval) (rest : agen) (w : World) :
  dict_get "request" kwargs = Some (VRequest names values) ->
  In "loop" names ->
  dict_get "loop" values = Some (VLoop l) ->
  f args (if strip then dict_del "request" kwargs else kwargs) = AYield v rest ->
  fst (wrapper (AsyncGen f) strip args kwargs w) = Ok v
  /\ finalizers (snd (wrapper (AsyncGen f) strip args kwargs w))
     = finalizers w ++ [FixtureFinalizer (VLoop l) (next_id w)]
  /\ fst (run_closure (FixtureFinalizer (VLoop l) (next_id w))
            (snd (wrapper (AsyncGen f) strip args kwargs w)))
     = match rest with
       | AEnd => Ok VNone
       | AFail StopAsyncIteration =>
           Raise (RuntimeError "async generator raised StopAsyncIteration")
       | AFail e => Raise e
       | AYield v2 _ => Ok v2
       end
  /\ trace (snd (run_closure (FixtureFinalizer (VLoop l) (next_id w))
                   (snd (wrapper (AsyncGen f) strip args kwargs w))))
     = trace w ++ [EvRunUntilComplete l; EvAnext (next_id w);
                   EvRunUntilComplete l; EvAnext (next_id w)].
Proof.
  intros Hreq Hin Hl Hf. unfold wrapper. rewrite Hreq.
  apply name_in_In in Hin. rewrite Hin. cbn [negb].
  unfold getfixturevalue. rewrite Hl.
  set (kw := if strip then dict_del "request" kwargs else kwargs) in *.
  cbn. rewrite Hf, lookup_insert_eq. cbn.
  unfold finalizer, try_except_StopAsyncIteration. cbn.
  rewrite lookup_insert_eq.
  destruct rest as [|e|v2 rest']; cbn.
  - repeat split. now rewrite <- !app_assoc.
  - destruct e; cbn; repeat split; now rewrite <- !app_assoc.
  - repeat split. now rewrite <- !app_assoc.
Qed.

Lemma async_gen_fixture_two_phases_witness :
  let run := call_fixture_func (func (pytest_fixture_setup MoreSamples.one_yield))
               [] [("request", Samples.request_with_loop)] empty_world in
  fst run = Ok (VObj 1)
  /\ fst (run_closure (FixtureFinalizer (VLoop 7) 0) (snd run)) = Ok VNone.
Proof.
  destruct (async_gen_fixture_two_phases
              (fun _ _ => AYield (VObj 1) AEnd) true []
              [("request", Samples.request_with_loop)]
              ["loop"; "x"] [("loop", VLoop 7)] 7 (VObj 1) AEnd empty_world
              eq_refl (or_introl eq_refl) eq_refl eq_refl)
    as (Hv & _ & Hrun & _).
  split; [exact Hv|exact Hrun].
Defined.

End FixturesMore.

(** ** The ephemeral server/client registry *)

Section RegistryMore.
Import Registry.


Lemma finalize_loop_frame (xs : nat) (fuel : nat) : forall (w : World),
  next_id (snd (finalize_loop fuel xs w)) = next_id w
  /\ captured (snd (finalize_loop fuel xs w)) = captured w
  /\ agens (snd (finalize_loop fuel xs w)) = agens w
  /\ finalizers (snd (finalize_loop fuel xs w)) = finalizers w
  /\ forall ys, ys <> xs ->
       pylists (snd (finalize_loop fuel xs w)) !! ys = pylists w !! ys.
Proof.
  induction fuel as [|fuel IH]; intros w; [cbn; repeat split|].
  cbn [finalize_loop]. unfold bind, list_nonempty.
  destruct (negb _); [|cbn; repeat split].
  unfold list_pop. destruct (rev (contents xs w)) as [|h before]; [cbn; repeat split|].
  unfold close, emit.
  match goal with
  | |- context [finalize_loop fuel xs ?w1] =>
      destruct (IH w1) as (Hn & Hc & Ha & Hf & Hp)
  end.
  rewrite Hn, Hc, Ha, Hf. repeat split.
  intros ys Hys. rewrite (Hp ys Hys). cbn. now apply lookup_insert_ne.
Qed.

(** X17: the teardown of one registry touches nothing but its own list
    and the trace: the other lists (the registries of the other
    fixtures of the test), the async generators, the registered
    finalizers and the warnings log are as before, and no object is
    created. *)
Theorem registry_teardown_frame (loop : pyval) (xs : nat) (w : World) :
  next_id (snd (registry_teardown loop xs w)) = next_id w
  /\ captured (snd (registry_teardown loop xs w)) = captured w
  /\ agens (snd (registry_teardown loop xs w)) = agens w
  /\ finalizers (snd (registry_teardown loop xs w)) = finalizers w
  /\ forall ys, ys <> xs ->
       contents ys (snd (registry_teardown loop xs w)) = contents ys w.
Proof.
  unfold registry_teardown, run_until_complete.
  destruct loop as [|l|o|ns vs];
    [cbn; repeat split| |cbn; repeat split|cbn; repeat split].
  unfold bind, finalize, emit.
  match goal with
  | |- context [finalize_loop ?f xs ?w1] =>
      destruct (finalize_loop_frame xs f w1) as (Hn & Hc & Ha & Hf & Hp);
      destruct (finalize_loop f xs w1) as [[u|e] w']
  end; cbn in *; rewrite Hn, Hc, Ha, Hf; repeat split;
    intros ys Hys; unfold contents; now rewrite (Hp ys Hys).
Qed.



End RegistryMore.
